(** * Risk/reward engine of stock-market-analyzer (src/analysis.py)

    Shallow embedding of [analyse_risk], [estimate_success_probability],
    [get_rating] and [calculate_risk_reward].

    Numbers.  Python and numpy floats are modelled by [flt]: a finite value is
    an exact rational (kept in lowest terms), and the IEEE special values NaN, +inf and -inf are kept
    because the code lets them flow (standard deviation of fewer than two
    returns, numpy divisions by zero).  Rounding and signed zeros are not
    modelled.  Two divisions are distinguished as in the source: numpy
    division ([fdiv], never raises) and Python float division ([pydiv],
    raises [ZeroDivisionError] on a zero divisor).

    Randomness.  [np.random.choice] reads numpy's global generator; the global
    state is modelled as the stream [gen] of raw draws still to come. *)

From Stdlib Require Import ZArith QArith Qabs Qround Ascii String List Bool Lia Lqa Permutation.
Import ListNotations.
Open Scope Z_scope.

(** ** Floats *)

Inductive flt : Type :=
| F (q : Q)
| NaN
| PInf
| NInf.

Definition qltb (a b : Q) : bool := negb (Qle_bool b a).
Definition qzero (a : Q) : bool := Qeq_bool a 0.

Definition fneg (x : flt) : flt :=
  match x with
  | F a => F (- a)
  | NaN => NaN
  | PInf => NInf
  | NInf => PInf
  end.

Definition fadd (x y : flt) : flt :=
  match x, y with
  | F a, F b => F (Qred (a + b))
  | NaN, _ | _, NaN => NaN
  | PInf, NInf | NInf, PInf => NaN
  | PInf, _ | _, PInf => PInf
  | NInf, _ | _, NInf => NInf
  end.

Definition fsub (x y : flt) : flt := fadd x (fneg y).

(** Sign of an infinite factor times a finite one. *)
Definition inf_times (pos : bool) (b : Q) : flt :=
  if qzero b then NaN
  else if xorb pos (qltb b 0) then PInf else NInf.

Definition fmul (x y : flt) : flt :=
  match x, y with
  | F a, F b => F (Qred (a * b))
  | NaN, _ | _, NaN => NaN
  | PInf, F b | F b, PInf => inf_times true b
  | NInf, F b | F b, NInf => inf_times false b
  | PInf, PInf | NInf, NInf => PInf
  | PInf, NInf | NInf, PInf => NInf
  end.

(** numpy true division: never raises. *)
Definition fdiv (x y : flt) : flt :=
  match x, y with
  | F a, F b =>
      if qzero b then
        (if qzero a then NaN else if qltb 0 a then PInf else NInf)
      else F (Qred (a / b))
  | NaN, _ | _, NaN => NaN
  | F _, PInf | F _, NInf => F 0
  | PInf, F b => if qltb b 0 then NInf else PInf
  | NInf, F b => if qltb b 0 then PInf else NInf
  | _, _ => NaN
  end.

Definition fabs (x : flt) : flt :=
  match x with
  | F a => F (Qabs a)
  | NaN => NaN
  | _ => PInf
  end.

(** Comparisons: every comparison with NaN is false. *)
Definition flt_lt (x y : flt) : bool :=
  match x, y with
  | F a, F b => qltb a b
  | NInf, F _ | NInf, PInf | F _, PInf => true
  | _, _ => false
  end.

Definition flt_le (x y : flt) : bool :=
  match x, y with
  | F a, F b => Qle_bool a b
  | NInf, F _ | NInf, PInf | NInf, NInf | F _, PInf | PInf, PInf => true
  | _, _ => false
  end.

Definition flt_gt (x y : flt) : bool := flt_lt y x.
Definition flt_ge (x y : flt) : bool := flt_le y x.

(** [x == 0.0] *)
Definition fzero (x : flt) : bool :=
  match x with F a => qzero a | _ => false end.

Definition fisnan (x : flt) : bool :=
  match x with NaN => true | _ => false end.

(** Python [min(a, b)]: keeps [a] unless [b < a]. *)
Definition pymin (a b : flt) : flt := if flt_lt b a then b else a.

(** [np.maximum] / [np.minimum]: NaN propagates. *)
Definition fmaximum (a b : flt) : flt :=
  if fisnan a || fisnan b then NaN else if flt_lt a b then b else a.
Definition fminimum (a b : flt) : flt :=
  if fisnan a || fisnan b then NaN else if flt_lt b a then b else a.

(** [np.sqrt] on a finite rational: rounded below to 8 decimals of the
    denominator's scale, [sqrt(n/d) = sqrt(n*d)/d]. *)
Definition qsqrt (a : Q) : Q :=
  Z.sqrt (Qnum a * Zpos (Qden a) * 10 ^ 16) # (Qden a * 100000000).

Definition fsqrt (x : flt) : flt :=
  match x with
  | F a => if qltb a 0 then NaN else F (qsqrt a)
  | PInf => PInf
  | _ => NaN
  end.

(** Literals of the source. *)
Definition f_of_Z (z : Z) : flt := F (inject_Z z).

(** ** Python exceptions and the error monad *)

Inductive pyexc : Type :=
| KeyError (k : string)
| ValueError
| ZeroDivisionError.

Inductive exc (A : Type) : Type :=
| Ok (a : A)
| Raise (e : pyexc).
Arguments Ok {A} a.
Arguments Raise {A} e.

Definition ebind {A B} (m : exc A) (k : A -> exc B) : exc B :=
  match m with Ok a => k a | Raise e => Raise e end.

Notation "'let?' x ':=' m 'in' k" := (ebind m (fun x => k))
  (at level 200, x name, m at level 100, k at level 200).

(** Python float division [x / y]: raises on a zero divisor. *)
Definition pydiv (x y : flt) : exc flt :=
  if fzero y then Raise ZeroDivisionError else Ok (fdiv x y).

(** Python [int / int]. *)
Definition pyintdiv (a b : Z) : exc flt :=
  if b =? 0 then Raise ZeroDivisionError else Ok (F (Qred (inject_Z a / inject_Z b))).

Definition str_exc (e : pyexc) : string :=
  match e with
  | KeyError k => ("'" ++ k ++ "'")%string
  | ValueError => "could not convert string to float"
  | ZeroDivisionError => "float division by zero"
  end.

(** ** Sequences (pandas / Python list helpers) *)

(** Python slice [l[start:]], negative [start] counting from the end. *)
Definition py_slice_from {A} (l : list A) (start : Z) : list A :=
  let n := Z.of_nat (length l) in
  let s := if start <? 0 then Z.max 0 (n + start) else Z.min start n in
  skipn (Z.to_nat s) l.

Definition fsum (l : list flt) : flt := fold_left fadd l (F 0).

(** [dropna]. *)
Definition dropna (l : list flt) : list flt := filter (fun x => negb (fisnan x)) l.

(** [Series.mean()]: NaN skipped, NaN when nothing is left. *)
Definition pmean (l : list flt) : flt :=
  match dropna l with
  | [] => NaN
  | v => fdiv (fsum v) (f_of_Z (Z.of_nat (length v)))
  end.

(** [Series.std()] with [ddof=1]: NaN below two values. *)
Definition pstd (l : list flt) : flt :=
  let v := dropna l in
  let n := Z.of_nat (length v) in
  if n <? 2 then NaN
  else
    let m := fdiv (fsum v) (f_of_Z n) in
    fsqrt (fdiv (fsum (map (fun x => let d := fsub x m in fmul d d) v))
                (f_of_Z (n - 1))).

(** Forward fill ([fill_method='pad'] of [pct_change]). *)
Fixpoint ffill_from (prev : flt) (l : list flt) : list flt :=
  match l with
  | [] => []
  | x :: r => let y := if fisnan x then prev else x in y :: ffill_from y r
  end.

(** [f s[i] s[i-1]] for each [i], with NaN standing for [s[-1]]. *)
Fixpoint with_prev (f : flt -> flt -> flt) (prev : flt) (l : list flt) : list flt :=
  match l with
  | [] => []
  | x :: r => f x prev :: with_prev f x r
  end.

(** [Series.pct_change()]. *)
Definition pct_change (l : list flt) : list flt :=
  with_prev (fun x p => fsub (fdiv x p) (F 1)) NaN (ffill_from NaN l).

(** [Series.diff()]. *)
Definition diff (l : list flt) : list flt := with_prev fsub NaN l.

(** [Series.rolling(window=w, min_periods=1).mean()]. *)
Definition rolling_mean (w : nat) (l : list flt) : list flt :=
  map (fun i => pmean (firstn (Nat.min w (S i)) (skipn (S i - w) l)))
      (seq 0 (length l)).

(** [(s < 30).mean()] style: fraction of the entries satisfying [p]. *)
Definition bool_mean (p : flt -> bool) (l : list flt) : flt :=
  fdiv (f_of_Z (Z.of_nat (length (filter p l)))) (f_of_Z (Z.of_nat (length l))).

(** ** Input data *)

(** A cell of the raw bar mapping: a string that [float()] parses to [x], or
    one it rejects. *)
Inductive raw : Type :=
| RNum (x : flt)
| RBad.

(** One bar; only the two columns the engine reads are kept ([None] when the
    bar has no such key). *)
Record bar : Type := mkBar {
  close_field : option raw;   (* "4. close" *)
  volume_field : option raw   (* "5. volume" *)
}.

(** [stock_data]: "Time Series (Daily)" (date, parsed to a day number, to bar;
    missing key = empty) and "Meta Data"/"2. Symbol". *)
Record stock_data : Type := mkStock {
  time_series : list (Z * bar);
  meta_symbol : option string
}.

Fixpoint insert_row (e : Z * bar) (l : list (Z * bar)) : list (Z * bar) :=
  match l with
  | [] => [e]
  | h :: t => if fst e <=? fst h then e :: l else h :: insert_row e t
  end.

(** [df.sort_index(ascending=True)]. *)
Definition sort_index (l : list (Z * bar)) : list (Z * bar) :=
  fold_right insert_row [] l.

(** [df[key]] of [DataFrame.from_dict(.., orient='index')]: the column exists
    when some bar has the key; bars without it hold NaN. *)
Definition column (key : string) (get : bar -> option raw) (rows : list (Z * bar))
  : exc (list (option raw)) :=
  if existsb (fun r => match get (snd r) with Some _ => true | None => false end) rows
  then Ok (map (fun r => get (snd r)) rows)
  else Raise (KeyError key).

(** [float(cell)]. *)
Definition cell_float (c : option raw) : exc flt :=
  match c with
  | None => Ok NaN
  | Some (RNum x) => Ok x
  | Some RBad => Raise ValueError
  end.

(** [.astype(float)]. *)
Fixpoint col_float (cs : list (option raw)) : exc (list flt) :=
  match cs with
  | [] => Ok []
  | c :: r => let? x := cell_float c in let? xs := col_float r in Ok (x :: xs)
  end.

(** ** [analyse_risk] *)

Inductive level : Type := LOW | MEDIUM | HIGH.

(** The nested conditional of the ["risk_level"] entry. *)
Definition level_of (avg : flt) : level :=
  if flt_gt avg (F (7 # 10)) then HIGH
  else if flt_gt avg (F (4 # 10)) then MEDIUM
  else LOW.

(** [min(raw / cap, 1.0)]. *)
Definition normalize (cap raw : flt) : flt := pymin (fdiv raw cap) (F 1).

Definition cap_volatility : flt := F (1 # 2).
Definition cap_drawdown : flt := F (3 # 10).
Definition cap_liquidity : flt := F (7 # 10).
Definition cap_bearish : flt := F (3 # 10).

(** Python truthiness of [user_volume]. *)
Definition truthy (u : option flt) : bool :=
  match u with None => false | Some x => negb (fzero x) end.

(** Step 1: annualised volatility of the daily returns. *)
Definition volatility_of (closes : list flt) : flt :=
  fmul (pstd (dropna (pct_change closes))) (fsqrt (f_of_Z 252)).

(** Step 3: [(recent_volume, liquidity_risk)]. *)
Definition liquidity_of (volumes : list flt) (user_volume : option flt) : flt * flt :=
  let avg_volume := pmean volumes in
  let recent_volume := pmean (py_slice_from volumes (-20)) in
  let liquidity_risk := fsub (F 1) (fdiv recent_volume avg_volume) in
  let liquidity_risk :=
    match user_volume with
    | None => liquidity_risk
    | Some u =>
        let user_volume_pct := fdiv u recent_volume in
        if flt_gt user_volume_pct (F (5 # 100))
        then fmul liquidity_risk (fadd (F 1) user_volume_pct)
        else liquidity_risk
    end in
  (recent_volume, liquidity_risk).

(** Step 4: frequency of days with RSI below 30. *)
Definition bearish_of (closes : list flt) : flt :=
  let delta := diff closes in
  let gain := map (fun d => if flt_gt d (F 0) then d else F 0) delta in
  let loss := map (fun d => fneg (if flt_lt d (F 0) then d else F 0)) delta in
  let avg_gain := rolling_mean 14 gain in
  let avg_loss := rolling_mean 14 loss in
  let avg_loss_safe := map (fun a => if fzero a then NaN else a) avg_loss in
  let rs := map (fun '(g, l) => fdiv g l) (combine avg_gain avg_loss_safe) in
  let rsi := map (fun r => fsub (f_of_Z 100) (fdiv (f_of_Z 100) (fadd (F 1) r))) rs in
  bool_mean (fun r => flt_lt r (f_of_Z 30)) rsi.

(** The four raw dimensions, their normalised values and the level. *)
Record risk_scores : Type := mkScores {
  s_volatility : flt;
  s_drawdown : flt;
  s_liquidity : flt;
  s_bearish : flt;
  s_norm_volatility : flt;
  s_norm_drawdown : flt;
  s_norm_liquidity : flt;
  s_norm_bearish : flt;
  s_recent_volume : flt;
  s_level : level
}.

Definition average4 (a b c d : flt) : flt :=
  fdiv (fadd (fadd (fadd a b) c) d) (f_of_Z 4).

(** Lines 46-92 and 144-146 of analysis.py; only the drawdown division, a
    Python float division by [current_price], can raise. *)
Definition scores_of (closes volumes : list flt) (current_price stop_loss : flt)
    (user_volume : option flt) : exc risk_scores :=
  let volatility := volatility_of closes in
  let norm_volatility := normalize cap_volatility volatility in
  let? drawdown := pydiv (fsub current_price stop_loss) current_price in
  let norm_drawdown := normalize cap_drawdown drawdown in
  let '(recent_volume, liquidity_risk) := liquidity_of volumes user_volume in
  let norm_liquidity := normalize cap_liquidity liquidity_risk in
  let bearish_freq := bearish_of closes in
  let norm_bearish := normalize cap_bearish bearish_freq in
  Ok (mkScores volatility drawdown liquidity_risk bearish_freq
        norm_volatility norm_drawdown norm_liquidity norm_bearish recent_volume
        (level_of (average4 norm_volatility norm_drawdown norm_liquidity norm_bearish))).

(** The returned dictionary of the success path.  [plot] keeps the values the
    radar chart draws (the PNG rendering itself is not modelled). *)
Record report : Type := mkReport {
  symbol : string;
  current_price : flt;
  target_selling_price : flt;
  stop_loss : flt;
  user_volume : option flt;
  recent_avg_volume : flt;
  volume_impact : option flt;
  volatility : flt;
  drawdown_risk : flt;
  liquidity_risk : flt;
  bearish_frequency : flt;
  risk_level : level;
  plot : list flt
}.

(** Result of [analyse_risk]: the error dictionary or the report. *)
Inductive risk_out : Type :=
| RiskError (msg : string)
| RiskReport (r : report).

(** Keys of the returned dictionary. *)
Definition risk_keys (o : risk_out) : list string :=
  match o with
  | RiskError _ => ["error"]
  | RiskReport _ =>
      ["symbol"; "current_price"; "target_selling_price"; "stop_loss";
       "user_volume"; "recent_avg_volume"; "volume_impact"; "risk_analysis";
       "plot"]
  end%string.

(** Keys of the nested ["risk_analysis"] dictionary of a report. *)
Definition risk_analysis_keys : list string :=
  ["volatility"; "drawdown_risk"; "liquidity_risk"; "bearish_frequency";
   "risk_level"]%string.

(** Body of the [try] block after the emptiness test. *)
Definition analyse_risk_body (sd : stock_data) (target_selling_price stop_loss : flt)
    (user_volume : option flt) : exc report :=
  let df := sort_index (time_series sd) in
  let? close_cells := column "4. close" close_field df in
  let? current_price := cell_float (last close_cells None) in
  let? closes := col_float close_cells in
  let? volume_cells := column "5. volume" volume_field df in
  let? volumes := col_float volume_cells in
  let? s := scores_of closes volumes current_price stop_loss user_volume in
  let symbol := match meta_symbol sd with Some x => x | None => "Unknown"%string end in
  Ok (mkReport symbol current_price target_selling_price stop_loss user_volume
        (s_recent_volume s)
        (if truthy user_volume
         then match user_volume with
              | Some u => Some (fdiv u (s_recent_volume s))
              | None => None
              end
         else None)
        (s_volatility s) (s_drawdown s) (s_liquidity s) (s_bearish s) (s_level s)
        [s_norm_volatility s; s_norm_drawdown s; s_norm_liquidity s;
         s_norm_bearish s; s_norm_volatility s]).

Definition analyse_risk (sd : stock_data) (target_selling_price stop_loss : flt)
    (user_volume : option flt) : risk_out :=
  match time_series sd with
  | [] => RiskError "No time series data available"
  | _ =>
      match analyse_risk_body sd target_selling_price stop_loss user_volume with
      | Ok r => RiskReport r
      | Raise e => RiskError ("Error in risk analysis: " ++ str_exc e)
      end
  end.

(** ** Global random state and [estimate_success_probability] *)

(** numpy's global generator: the stream of raw draws still to come. *)
Definition gen : Type := nat -> nat.

Definition gshift (g : gen) (k : nat) : gen := fun i => g (k + i)%nat.

(** State-and-exception monad threading the global generator. *)
Definition M (A : Type) : Type := gen -> exc A * gen.

Definition mret {A} (a : A) : M A := fun g => (Ok a, g).
Definition mlift {A} (e : exc A) : M A := fun g => (e, g).
Definition mbind {A B} (m : M A) (k : A -> M B) : M B :=
  fun g => match m g with
           | (Ok a, g') => k a g'
           | (Raise e, g') => (Raise e, g')
           end.

Notation "x <- m ;; k" := (mbind m (fun x => k))
  (at level 61, m at next level, right associativity).

(** [np.random.choice(a, size)]: each draw picks index [raw mod len(a)]. *)
Fixpoint choice (a : list flt) (size : nat) (g : gen) : list flt * gen :=
  match size with
  | O => ([], g)
  | S s =>
      let x := nth (g O mod length a)%nat a NaN in
      let '(xs, g') := choice a s (gshift g 1) in
      (x :: xs, g')
  end.

Fixpoint cumprod_from (acc : flt) (l : list flt) : list flt :=
  match l with
  | [] => []
  | x :: r => let y := fmul acc x in y :: cumprod_from y r
  end.

(** [(1 + r).cumprod()]. *)
Definition cumprod (l : list flt) : list flt :=
  match l with
  | [] => []
  | x :: r => x :: cumprod_from x r
  end.

(** [entry_price * (1 + random_returns).cumprod()]. *)
Definition price_path (entry_price : flt) (random_returns : list flt) : list flt :=
  map (fmul entry_price) (cumprod (map (fadd (F 1)) random_returns)).

Definition np_max (l : list flt) : flt :=
  match l with [] => NaN | x :: r => fold_left fmaximum r x end.
Definition np_min (l : list flt) : flt :=
  match l with [] => NaN | x :: r => fold_left fminimum r x end.

(** Body of the simulation loop: does the trial add one to [hits_target]? *)
Definition trial_success (entry_price target_price stop_loss : flt)
    (path : list flt) : bool :=
  if flt_ge (np_max path) target_price then true
  else if flt_le (np_min path) stop_loss then false
  else flt_gt (last path NaN) entry_price.

Definition path_length : nat := 30.

(** [for _ in range(k)]: returns the final [hits_target]. *)
Fixpoint sim_loop (k : nat) (recent_returns : list flt)
    (entry_price target_price stop_loss : flt) (hits : Z) (g : gen) : Z * gen :=
  match k with
  | O => (hits, g)
  | S k' =>
      let '(random_returns, g') := choice recent_returns path_length g in
      let path := price_path entry_price random_returns in
      sim_loop k' recent_returns entry_price target_price stop_loss
        (if trial_success entry_price target_price stop_loss path
         then hits + 1 else hits) g'
  end.

(** [closes.pct_change().dropna()[-lookback_days:]]. *)
Definition recent_returns_of (closes : list flt) (lookback_days : Z) : list flt :=
  py_slice_from (dropna (pct_change closes)) (- lookback_days).

(** The simulation once the closing prices are known. *)
Definition simulate (closes : list flt) (entry_price target_price stop_loss : flt)
    (n_simulations lookback_days : Z) : M flt :=
  fun g =>
    let recent_returns := recent_returns_of closes lookback_days in
    if (Z.of_nat (length recent_returns) <? 5)
    then (Ok (F (1 # 2)), g)
    else
      let '(hits_target, g') :=
        sim_loop (Z.to_nat n_simulations) recent_returns entry_price target_price
          stop_loss 0 g in
      (pyintdiv hits_target n_simulations, g').

(** [df['4. close'].astype(float).sort_index(ascending=True)]. *)
Definition sorted_closes (sd : stock_data) : exc (list flt) :=
  let? cells := column "4. close" close_field (sort_index (time_series sd)) in
  col_float cells.

Definition estimate_success_probability (sd : stock_data)
    (entry_price target_price stop_loss : flt)
    (n_simulations lookback_days : Z) : M flt :=
  match time_series sd with
  | [] => mret (F (1 # 2))
  | _ =>
      closes <- mlift (sorted_closes sd) ;;
      simulate closes entry_price target_price stop_loss n_simulations lookback_days
  end.

(** ** [get_rating] and [calculate_risk_reward] *)

Inductive rating : Type := EXCELLENT | GOOD | FAIR | WEAK.

Definition get_rating (sharpe rr_ratio : flt) : rating :=
  if flt_gt sharpe (F (3 # 2)) && flt_gt rr_ratio (F 2) then EXCELLENT
  else if flt_gt sharpe (F 1) && flt_gt rr_ratio (F (3 # 2)) then GOOD
  else if flt_gt sharpe (F (1 # 2)) && flt_gt rr_ratio (F 1) then FAIR
  else WEAK.

Record reward : Type := mkReward {
  sharpe_ratio : flt;
  annualized_return_pct : flt;
  risk_reward_ratio : flt;
  success_probability : flt;
  reward_rating : rating
}.

(** Result of [calculate_risk_reward] when it returns: the risk result passed
    through, or the report merged with ["reward_analysis"]. *)
Inductive rr_out : Type :=
| RRPassthrough (o : risk_out)
| RRFull (r : report) (w : reward).

Definition rr_keys (o : rr_out) : list string :=
  match o with
  | RRPassthrough ro => risk_keys ro
  | RRFull r _ => risk_keys (RiskReport r) ++ ["reward_analysis"%string]
  end.

Definition calculate_risk_reward (sd : stock_data) (target_price stop_loss : flt)
    (user_volume : option flt) (holding_period_days : Z) (risk_free_rate : flt)
    : M rr_out :=
  match analyse_risk sd target_price stop_loss user_volume with
  | RiskError m => mret (RRPassthrough (RiskError m))
  | RiskReport r =>
      let current_price := current_price r in
      let volatility := volatility r in
      q <- mlift (pydiv target_price current_price) ;;
      let potential_return_pct := fsub q (F 1) in
      h <- mlift (pyintdiv 252 holding_period_days) ;;
      let annualized_return := fmul potential_return_pct h in
      sharpe <- mlift (pydiv (fsub annualized_return risk_free_rate) volatility) ;;
      success_prob <- estimate_success_probability sd current_price target_price
                        stop_loss 1000 60 ;;
      sc <- mlift (pydiv stop_loss current_price) ;;
      rr <- mlift (pydiv (fmul success_prob potential_return_pct)
                         (fmul (fsub (F 1) success_prob) (fabs (fsub sc (F 1))))) ;;
      mret (RRFull r (mkReward sharpe (fmul annualized_return (f_of_Z 100)) rr
                        success_prob (get_rating sharpe rr)))
  end.

(** ** Shared definitions for the statements *)

(** The most recent [k] elements of [l]. *)
Definition lastn {A} (k : nat) (l : list A) : list A := skipn (length l - k) l.

(** All trials of the loop: the sampled return vectors, in order. *)
Fixpoint draw_trials (k : nat) (recent_returns : list flt) (g : gen)
  : list (list flt) * gen :=
  match k with
  | O => ([], g)
  | S k' =>
      let '(rs, g') := choice recent_returns path_length g in
      let '(rss, g'') := draw_trials k' recent_returns g' in
      (rs :: rss, g'')
  end.

(** A bar with numeric close [c] and volume [v] on day [d]. *)
Definition row (d : Z) (c v : Q) : Z * bar :=
  (d, mkBar (Some (RNum (F c))) (Some (RNum (F v)))).

(** Sample inputs used by the concrete statements below. *)

(** Closes 100, 150, 75, 75, 75, 75: daily returns 0.5, -0.5, 0, 0, 0. *)
Definition mc_stock : stock_data :=
  mkStock [row 1 100 1000; row 2 150 1000; row 3 75 1000; row 4 75 1000;
           row 5 75 1000; row 6 75 1000] None.

(** A seeded global state: thirty draws of index 0, then index 1 forever. *)
Definition gen_seeded : gen := fun i => if (i <? 30)%nat then O else 1%nat.

(** Two states drawing the same returns, the first two swapped. *)
Definition gen_up_down : gen :=
  fun i => match i with O => O | 1 => 1 | _ => 2 end%nat.
Definition gen_down_up : gen :=
  fun i => match i with O => 1 | 1 => O | _ => 2 end%nat.


(** Two bars, closes 100 and 102: a single daily return. *)
Definition two_bar_stock : stock_data :=
  mkStock [row 1 100 1000; row 2 102 1000] None.

(** 21 bars at price 100: volume 0 on the first day, 1000 on the last 20, so
    the recent average volume exceeds the overall average. *)
Definition volume_rise_stock : stock_data :=
  mkStock (row 0 100 0 :: map (fun d => row (Z.of_nat d) 100 1000) (seq 1 20)) None.

(** The rule [norm = min(raw/cap, 1.0)] and what it gives. *)
Definition norm_rule (cap raw norm : flt) : Prop :=
  norm = normalize cap raw
  /\ (fisnan raw = false -> flt_le norm (F 1) = true)
  /\ (flt_lt (fdiv raw cap) (F 1) = true -> norm = fdiv raw cap)
  /\ (flt_lt raw (F 0) = true -> flt_lt norm (F 0) = true)
  /\ (fisnan raw = true -> norm = NaN).

(** Closes 100, 101, 103: two daily returns, a nonzero volatility. *)
Definition three_bar_stock : stock_data :=
  mkStock [row 1 100 1000; row 2 101 1000; row 3 103 1000] None.

(** Order of the four ratings. *)
Definition rating_rank (x : rating) : nat :=
  match x with WEAK => 0 | FAIR => 1 | GOOD => 2 | EXCELLENT => 3 end.

(** ** The HTTP layer (src/main.py) *)

(** Exceptions a route lets escape (the server answers them with a 500):
    those of the engine, and the two the HTML formatting can raise. *)
Inductive endpoint_exc : Type :=
| EngineExc (e : pyexc)
| TypeError
| IndexError.

Inductive result (A : Type) : Type :=
| Done (a : A)
| Throw (e : endpoint_exc).
Arguments Done {A} a.
Arguments Throw {A} e.

(** The decoded Alpha Vantage object: the two keys the routes test, and the
    data [analyse_risk] reads. *)
Record api_json : Type := mkJson {
  error_message : option string;  (* data["Error Message"], if present *)
  has_note : bool;                (* "Note" in data *)
  payload : stock_data
}.

(** [requests.get(...)], [raise_for_status()] and [.json()]: either a
    [RequestException] (with its text) or the decoded object.  The request
    parameters (symbol, function, key) only select which response comes back,
    so the response is an input of the routes. *)
Inductive fetch_result : Type :=
| RequestFailed (msg : string)
| Fetched (data : api_json).

(** What a route produces: an [HTTPException], a returned value, or an
    exception no [except] clause catches. *)
Inductive http_outcome (A : Type) : Type :=
| HTTPError (status : Z) (detail : string)
| Returned (a : A)
| Uncaught (e : endpoint_exc).
Arguments HTTPError {A} status detail.
Arguments Returned {A} a.
Arguments Uncaught {A} e.

(** The HTML text of a plot route: the error page or the analysis page. *)
Inductive html_out (P : Type) : Type :=
| ErrorPage (msg : string)
| Page (p : P).
Arguments ErrorPage {P} msg.
Arguments Page {P} p.

(** [if not ALPHA_VANTAGE_API_KEY]: unset or empty. *)
Definition key_configured (api_key : option string) : bool :=
  match api_key with None => false | Some k => negb (String.eqb k EmptyString) end.

Definition key_missing_detail : string :=
  "Alpha Vantage API key not configured. Please set ALPHA_VANTAGE_API_KEY environment variable.".

Inductive prologue : Type :=
| Stop (status : Z) (detail : string)
| Proceed (data : api_json).

(** The common start of the data routes: the key test, then inside the [try]
    the request and the two API error tests.  The [HTTPException]s raised in
    the [try] are not [RequestException]s, so they leave it unchanged;
    [failure_prefix] is the route's text for a [RequestException]. *)
Definition api_prologue (api_key : option string) (failure_prefix : string)
    (fetched : fetch_result) : prologue :=
  if negb (key_configured api_key) then Stop 500 key_missing_detail
  else
    match fetched with
    | RequestFailed msg => Stop 500 (failure_prefix ++ msg)%string
    | Fetched data =>
        match error_message data with
        | Some m => Stop 400 m
        | None =>
            if has_note data then Stop 429 "API rate limit exceeded"
            else Proceed data
        end
    end.

Definition get_stock_data (api_key : option string) (fetched : fetch_result)
  : http_outcome api_json :=
  match api_prologue api_key "Error fetching data: " fetched with
  | Stop st d => HTTPError st d
  | Proceed data => Returned data
  end.

Definition search_stocks (api_key : option string) (fetched : fetch_result)
  : http_outcome api_json :=
  match api_prologue api_key "Error searching stocks: " fetched with
  | Stop st d => HTTPError st d
  | Proceed data => Returned data
  end.

(** *** String operations used by the pages *)

(** [str.lower()] on a byte string: ASCII capitals are lowered, every other
    byte is kept (the strings lowered here are ASCII letters and emoji, which
    [lower()] leaves alone). *)
Definition lower_char (c : ascii) : ascii :=
  let n := nat_of_ascii c in
  if (65 <=? n)%nat && (n <=? 90)%nat then ascii_of_nat (n + 32) else c.

Fixpoint str_lower (s : string) : string :=
  match s with
  | EmptyString => EmptyString
  | String c r => String (lower_char c) (str_lower r)
  end.

(** ASCII whitespace of [str.split()] (space, \t \n \v \f \r, \x1c-\x1f);
    the non-ASCII separators do not occur in the strings split here. *)
Definition py_space (c : ascii) : bool :=
  let n := nat_of_ascii c in
  (n =? 32)%nat || ((9 <=? n)%nat && (n <=? 13)%nat)
  || ((28 <=? n)%nat && (n <=? 31)%nat).

Fixpoint lstrip (s : string) : string :=
  match s with
  | EmptyString => EmptyString
  | String c r => if py_space c then lstrip r else s
  end.

Fixpoint first_token (s : string) : string :=
  match s with
  | EmptyString => EmptyString
  | String c r => if py_space c then EmptyString else String c (first_token r)
  end.

(** [s.split()[0]]: [IndexError] when [s] is blank. *)
Definition split_first (s : string) : result string :=
  match lstrip s with
  | EmptyString => Throw IndexError
  | s' => Done (first_token s')
  end.

Definition level_str (l : level) : string :=
  match l with LOW => "LOW" | MEDIUM => "MEDIUM" | HIGH => "HIGH" end.

(** U+2B50 U+FE0F in UTF-8. *)
Definition star : string :=
  String (ascii_of_nat 226) (String (ascii_of_nat 173) (String (ascii_of_nat 144)
    (String (ascii_of_nat 239) (String (ascii_of_nat 184) (String (ascii_of_nat 143)
      EmptyString))))).

Fixpoint stars (n : nat) : string :=
  match n with O => EmptyString | S k => (star ++ stars k)%string end.

(** The string [get_rating] returns. *)
Definition rating_label (x : rating) : string :=
  match x with
  | EXCELLENT => stars 5 ++ " EXCELLENT"
  | GOOD => stars 4 ++ " GOOD"
  | FAIR => stars 3 ++ " FAIR"
  | WEAK => stars 2 ++ " WEAK"
  end%string.

(** *** The pages *)

(** A replacement field with a numeric format spec ([:,], [:.1%]): a number
    formats (NaN and infinities included), [None] raises [TypeError]. *)
Definition format_num (x : option flt) : result flt :=
  match x with Some v => Done v | None => Throw TypeError end.

(** The risk page: the report values it prints, the formatted user volume and
    volume impact, and the CSS class of the level. *)
Record risk_page : Type := mkRiskPage {
  rp_report : report;
  rp_user_volume : flt;
  rp_volume_impact : flt;
  rp_level_class : string
}.

(** The f-string of lines 184-238, fields in order; the other fields format a
    float and cannot raise. *)
Definition render_risk_page (r : report) : result risk_page :=
  match format_num (user_volume r) with
  | Throw e => Throw e
  | Done uvol =>
      match format_num (volume_impact r) with
      | Throw e => Throw e
      | Done vi =>
          Done (mkRiskPage r uvol vi ("risk-" ++ str_lower (level_str (risk_level r)))%string)
      end
  end.

Record reward_page : Type := mkRewardPage {
  wp_report : report;
  wp_volume_impact : flt;
  wp_level_class : string;
  wp_reward : reward;
  wp_rating_class : string;
  wp_rating_text : string
}.

(** The f-string of lines 310-385 on a dictionary with or without
    ["reward_analysis"]; the user volume printed at line 345 is the route's own
    float parameter. *)
Definition render_reward_page (r : report) (w : option reward) : result reward_page :=
  match format_num (volume_impact r) with
  | Throw e => Throw e
  | Done vi =>
      match w with
      | None => Throw (EngineExc (KeyError "reward_analysis"))
      | Some w =>
          match split_first (rating_label (reward_rating w)) with
          | Throw e => Throw e
          | Done word =>
              Done (mkRewardPage r vi ("risk-" ++ str_lower (level_str (risk_level r)))%string
                      w ("rating-" ++ str_lower word)%string (rating_label (reward_rating w)))
          end
      end
  end.

(** Route [/plot/risk/{symbol}]; [user_volume] is a required float. *)
Definition plot_risk_analysis (api_key : option string) (fetched : fetch_result)
    (target_selling_price stop_loss user_volume : flt)
  : http_outcome (html_out risk_page) :=
  match api_prologue api_key "Error fetching data: " fetched with
  | Stop st d => HTTPError st d
  | Proceed data =>
      match analyse_risk (payload data) target_selling_price stop_loss (Some user_volume) with
      | RiskError m => Returned (ErrorPage m)
      | RiskReport r =>
          match render_risk_page r with
          | Done p => Returned (Page p)
          | Throw e => Uncaught e
          end
      end
  end.

(** Route [/plot/risk-reward/{symbol}]; it draws from the global generator
    through [calculate_risk_reward]. *)
Definition plot_risk_reward_analysis (api_key : option string) (fetched : fetch_result)
    (target_price stop_loss user_volume : flt) (holding_period_days : Z)
    (risk_free_rate : flt) (g : gen) : http_outcome (html_out reward_page) * gen :=
  match api_prologue api_key "Error fetching data: " fetched with
  | Stop st d => (HTTPError st d, g)
  | Proceed data =>
      let '(res, g') := calculate_risk_reward (payload data) target_price stop_loss
                          (Some user_volume) holding_period_days risk_free_rate g in
      (match res with
       | Raise e => Uncaught (EngineExc e)
       | Ok (RRPassthrough (RiskError m)) => Returned (ErrorPage m)
       | Ok (RRPassthrough (RiskReport r)) =>
           match render_reward_page r None with
           | Done p => Returned (Page p)
           | Throw e => Uncaught e
           end
       | Ok (RRFull r w) =>
           match render_reward_page r (Some w) with
           | Done p => Returned (Page p)
           | Throw e => Uncaught e
           end
       end, g')
  end.

Definition styled_risk_classes : list string :=
  ["risk-high"; "risk-medium"; "risk-low"]%string.

Definition styled_rating_classes : list string :=
  ["rating-excellent"; "rating-good"; "rating-fair"; "rating-weak"]%string.

(** ** Lemmas *)

Lemma ebind_ok {A B} (m : exc A) (k : A -> exc B) (b : B) :
  ebind m k = Ok b -> exists a, m = Ok a /\ k a = Ok b.
Proof. destruct m; simpl; [eauto | discriminate]. Qed.

Lemma ebind_raise {A B} (m : exc A) (k : A -> exc B) (e : pyexc) :
  ebind m k = Raise e -> m = Raise e \/ exists a, m = Ok a /\ k a = Raise e.
Proof. destruct m; simpl; [eauto | intros H; inversion H; auto]. Qed.

Ltac ok_inv H :=
  repeat match type of H with
  | ebind _ _ = Ok _ =>
      let a := fresh "a" in let Ha := fresh "Ha" in
      apply ebind_ok in H; destruct H as [a [Ha H]]
  end.

Lemma analyse_risk_report sd t s u r :
  analyse_risk sd t s u = RiskReport r ->
  time_series sd <> [] /\ analyse_risk_body sd t s u = Ok r.
Proof.
  unfold analyse_risk. destruct (time_series sd) eqn:E; [discriminate|].
  destruct (analyse_risk_body sd t s u) eqn:B; intros H; inversion H; subst.
  split; [discriminate | reflexivity].
Qed.

(** Anatomy of a successful body. *)
Lemma body_ok_inv sd t s u r :
  analyse_risk_body sd t s u = Ok r ->
  exists closes volumes sc,
    sorted_closes sd = Ok closes /\
    scores_of closes volumes (current_price r) s u = Ok sc /\
    stop_loss r = s /\ target_selling_price r = t /\
    volatility r = s_volatility sc /\ drawdown_risk r = s_drawdown sc /\
    liquidity_risk r = s_liquidity sc /\ bearish_frequency r = s_bearish sc /\
    risk_level r = s_level sc.
Proof.
  unfold analyse_risk_body. intros H. ok_inv H.
  injection H as <-. simpl.
  exists a1, a3, a4. repeat split; auto.
  unfold sorted_closes. rewrite Ha. exact Ha1.
Qed.

Lemma scores_of_inv closes volumes cp s u sc :
  scores_of closes volumes cp s u = Ok sc ->
  fzero cp = false /\
  s_norm_volatility sc = normalize cap_volatility (s_volatility sc) /\
  s_norm_drawdown sc = normalize cap_drawdown (s_drawdown sc) /\
  s_norm_liquidity sc = normalize cap_liquidity (s_liquidity sc) /\
  s_norm_bearish sc = normalize cap_bearish (s_bearish sc) /\
  s_level sc = level_of (average4 (s_norm_volatility sc) (s_norm_drawdown sc)
                           (s_norm_liquidity sc) (s_norm_bearish sc)) /\
  s_volatility sc = volatility_of closes /\
  s_liquidity sc = snd (liquidity_of volumes u) /\
  s_bearish sc = bearish_of closes.
Proof.
  unfold scores_of, pydiv. destruct (fzero cp) eqn:Z0; simpl; [discriminate|].
  destruct (liquidity_of volumes u) as [rv lr] eqn:L.
  intros H. injection H as <-. simpl. repeat split; reflexivity.
Qed.

Lemma recent_returns_lastn closes lb :
  0 < lb ->
  recent_returns_of closes lb = lastn (Z.to_nat lb) (dropna (pct_change closes)).
Proof.
  intros Hlb. unfold recent_returns_of, py_slice_from, lastn.
  set (l := dropna (pct_change closes)).
  replace (- lb <? 0) with true by (symmetry; apply Z.ltb_lt; lia).
  f_equal. lia.
Qed.

(** ** Claims *)

(** C3: an empty time series gives the error dictionary
    ["No time series data available"], and whenever [analyse_risk] returns an
    error dictionary, [calculate_risk_reward] returns that same dictionary
    (only the key ["error"], no reward fields) without touching the random
    state. *)
Theorem empty_series_error_short_circuits :
  forall sd target stop uv holding rf g,
    (time_series sd = [] ->
     analyse_risk sd target stop uv = RiskError "No time series data available")
    /\ (forall m, analyse_risk sd target stop uv = RiskError m ->
        calculate_risk_reward sd target stop uv holding rf g
          = (Ok (RRPassthrough (RiskError m)), g)
        /\ rr_keys (RRPassthrough (RiskError m)) = ["error"%string]).
Proof.
  intros sd target stop uv holding rf g. split.
  - intros E. unfold analyse_risk. rewrite E. reflexivity.
  - intros m Hm. unfold calculate_risk_reward. rewrite Hm. split; reflexivity.
Qed.

Lemma empty_series_error_short_circuits_witness :
  analyse_risk (mkStock [] None) (F 140) (F 95) (Some (F 0))
    = RiskError "No time series data available"
  /\ calculate_risk_reward (mkStock [] None) (F 140) (F 95) (Some (F 0)) 30
       (F (4 # 100)) (fun _ => O)
     = (Ok (RRPassthrough (RiskError "No time series data available")), fun _ => O).
Proof.
  destruct (empty_series_error_short_circuits (mkStock [] None) (F 140) (F 95)
              (Some (F 0)) 30 (F (4 # 100)) (fun _ => O)) as [H1 H2].
  split; [apply H1; reflexivity | apply H2, H1; reflexivity].
Defined.

(** C5: when the most recent [lookback_days] daily returns (here with
    [lookback_days > 0]) are fewer than 5 (or the series is empty), the
    simulator returns exactly 0.5 and leaves the random state untouched: no
    trial is drawn. *)
Theorem few_returns_neutral_probability :
  forall sd entry target stop n lb closes g,
    0 < lb ->
    time_series sd = []
    \/ (sorted_closes sd = Ok closes
        /\ (length (lastn (Z.to_nat lb) (dropna (pct_change closes))) < 5)%nat) ->
    estimate_success_probability sd entry target stop n lb g = (Ok (F (1 # 2)), g).
Proof.
  intros sd entry target stop n lb closes g Hlb [E | [Hc Hlen]].
  - unfold estimate_success_probability. rewrite E. reflexivity.
  - unfold estimate_success_probability.
    assert (Hne : time_series sd <> []).
    { intros E. unfold sorted_closes, column in Hc. rewrite E in Hc. discriminate. }
    destruct (time_series sd) eqn:E; [contradiction|].
    unfold mbind, mlift. rewrite Hc. unfold simulate.
    rewrite (recent_returns_lastn closes lb Hlb).
    replace (Z.of_nat _ <? 5) with true by (symmetry; apply Z.ltb_lt; lia).
    reflexivity.
Qed.

Lemma few_returns_neutral_probability_witness :
  estimate_success_probability
    (mkStock [row 1 100 1000; row 2 101 1000; row 3 102 1000] None)
    (F 102) (F 110) (F 95) 1000 60 (fun _ => O)
  = (Ok (F (1 # 2)), fun _ => O).
Proof.
  apply (few_returns_neutral_probability _ _ _ _ _ _ [F 100; F 101; F 102]).
  - lia.
  - right. split; [reflexivity | vm_compute; lia].
Defined.

Lemma risk_level_is_level_of sd target stop uv r :
  analyse_risk sd target stop uv = RiskReport r ->
  risk_level r =
    level_of (average4 (normalize cap_volatility (volatility r))
                       (normalize cap_drawdown (drawdown_risk r))
                       (normalize cap_liquidity (liquidity_risk r))
                       (normalize cap_bearish (bearish_frequency r))).
Proof.
  intros H. apply analyse_risk_report in H as [_ Hb].
  apply body_ok_inv in Hb
    as (closes & volumes & sc & _ & Hs & _ & _ & Hv & Hd & Hl & Hbf & Hlv).
  apply scores_of_inv in Hs as (_ & Nv & Nd & Nl & Nb & L & _).
  rewrite Hlv, Hv, Hd, Hl, Hbf, <- Nv, <- Nd, <- Nl, <- Nb. exact L.
Qed.

(** C9: the reported risk level is read off the average of the four
    normalised scores [min(raw/cap, 1.0)] of the reported raw values: HIGH
    exactly when the average is > 0.7, MEDIUM exactly when it is not > 0.7 but
    > 0.4, LOW otherwise. *)
Theorem risk_level_thresholds :
  forall sd target stop uv r,
    analyse_risk sd target stop uv = RiskReport r ->
    let avg := average4 (normalize cap_volatility (volatility r))
                        (normalize cap_drawdown (drawdown_risk r))
                        (normalize cap_liquidity (liquidity_risk r))
                        (normalize cap_bearish (bearish_frequency r)) in
    (risk_level r = HIGH <-> flt_gt avg (F (7 # 10)) = true)
    /\ (risk_level r = MEDIUM <->
        flt_gt avg (F (7 # 10)) = false /\ flt_gt avg (F (4 # 10)) = true)
    /\ (risk_level r = LOW <->
        flt_gt avg (F (7 # 10)) = false /\ flt_gt avg (F (4 # 10)) = false).
Proof.
  intros sd target stop uv r H avg.
  rewrite (risk_level_is_level_of _ _ _ _ _ H). fold avg. unfold level_of.
  destruct (flt_gt avg (F (7 # 10))), (flt_gt avg (F (4 # 10)));
    repeat split; intros; try discriminate; try reflexivity;
    repeat match goal with H : _ /\ _ |- _ => destruct H end; discriminate.
Qed.

Lemma risk_level_thresholds_witness :
  let sd := mkStock [row 1 100 1000; row 2 100 1000; row 3 100 1000] None in
  analyse_risk sd (F 110) (F 90) None = RiskReport
    (mkReport "Unknown" (F 100) (F 110) (F 90) None (F 1000) None
       (F 0) (F (1 # 10)) (F 0) (F 0) LOW [F 0; F (1 # 3); F 0; F 0; F 0])
  /\ (LOW = HIGH <-> false = true).
Proof.
  intros sd. split; [vm_compute; reflexivity|].
  exact (proj1 (risk_level_thresholds sd (F 110) (F 90) None _
                  ltac:(vm_compute; reflexivity))).
Defined.

(** C10: [analyse_risk] is total: it returns either the error dictionary
    (only the key ["error"]), exactly when the series is empty or the body of
    the [try] raised, or the full report (all keys, with ["risk_analysis"]
    holding the four raw values and the level) with no ["error"] key. *)
Theorem analyse_risk_total :
  forall sd target stop uv,
    (exists m, analyse_risk sd target stop uv = RiskError m
       /\ risk_keys (analyse_risk sd target stop uv) = ["error"%string]
       /\ (time_series sd = []
           \/ exists e, analyse_risk_body sd target stop uv = Raise e
                  /\ m = ("Error in risk analysis: " ++ str_exc e)%string))
    \/ (exists r, analyse_risk sd target stop uv = RiskReport r
       /\ analyse_risk_body sd target stop uv = Ok r
       /\ ~ In "error"%string (risk_keys (analyse_risk sd target stop uv))
       /\ incl ["symbol"; "current_price"; "target_selling_price"; "stop_loss";
                "user_volume"; "recent_avg_volume"; "volume_impact";
                "risk_analysis"; "plot"]%string
               (risk_keys (analyse_risk sd target stop uv))).
Proof.
  intros sd target stop uv. unfold analyse_risk.
  destruct (time_series sd) eqn:E.
  - left. eexists. split; [reflexivity|]. split; [reflexivity|]. left; reflexivity.
  - destruct (analyse_risk_body sd target stop uv) eqn:B.
    + right. exists a. split; [reflexivity|]. split; [reflexivity|]. split.
      * simpl. intuition discriminate.
      * apply incl_refl.
    + left. eexists. split; [reflexivity|]. split; [reflexivity|].
      right. exists e. split; reflexivity.
Qed.

(** *** Sampling and the simulation loop *)

Lemma choice_spec a s g :
  fst (choice a s g) = map (fun j => nth (g j mod length a)%nat a NaN) (seq 0 s)
  /\ forall i, snd (choice a s g) i = g (s + i)%nat.
Proof.
  revert g. induction s as [|s IH]; intros g; simpl.
  - split; reflexivity.
  - destruct (IH (gshift g 1)) as [H1 H2].
    destruct (choice a s (gshift g 1)) as [xs g'] eqn:C. simpl in *. split.
    + f_equal. rewrite H1, <- seq_shift, map_map. reflexivity.
    + intros i. rewrite H2. reflexivity.
Qed.

Lemma choice_length a s g : length (fst (choice a s g)) = s.
Proof.
  rewrite (proj1 (choice_spec a s g)), length_map, length_seq. reflexivity.
Qed.

Lemma choice_in a s g r :
  a <> [] -> In r (fst (choice a s g)) -> In r a.
Proof.
  intros Ha. rewrite (proj1 (choice_spec a s g)). intros Hr.
  apply in_map_iff in Hr as (j & <- & _). apply nth_In.
  apply Nat.mod_upper_bound. destruct a; [contradiction | discriminate].
Qed.

Lemma choice_agree a s g1 g2 :
  (forall i, (i < s)%nat -> g1 i = g2 i) ->
  fst (choice a s g1) = fst (choice a s g2).
Proof.
  intros H. rewrite (proj1 (choice_spec a s g1)), (proj1 (choice_spec a s g2)).
  apply map_ext_in. intros j Hj. apply in_seq in Hj. rewrite H by lia.
  reflexivity.
Qed.

Lemma draw_trials_state k rr g i :
  snd (draw_trials k rr g) i = g (path_length * k + i)%nat.
Proof.
  revert g i. induction k as [|k IH]; intros g i; cbn [draw_trials].
  - cbn [snd]. f_equal; lia.
  - pose proof (proj2 (choice_spec rr path_length g)) as Hs.
    destruct (choice rr path_length g) as [rs g'] eqn:C. cbn [snd] in Hs.
    specialize (IH g' i).
    destruct (draw_trials k rr g') as [rss g''] eqn:D. cbn [snd] in *.
    rewrite IH, Hs. f_equal. lia.
Qed.

Lemma draw_trials_agree k rr g1 g2 :
  (forall i, (i < path_length * k)%nat -> g1 i = g2 i) ->
  fst (draw_trials k rr g1) = fst (draw_trials k rr g2).
Proof.
  revert g1 g2. induction k as [|k IH]; intros g1 g2 H; cbn [draw_trials];
    [reflexivity|].
  pose proof (choice_agree rr path_length g1 g2) as Ha.
  pose proof (proj2 (choice_spec rr path_length g1)) as S1.
  pose proof (proj2 (choice_spec rr path_length g2)) as S2.
  destruct (choice rr path_length g1) as [rs1 g1'] eqn:C1.
  destruct (choice rr path_length g2) as [rs2 g2'] eqn:C2. cbn [fst snd] in *.
  rewrite Ha by (intros i Hi; apply H; lia).
  specialize (IH g1' g2').
  destruct (draw_trials k rr g1') as [r1 h1], (draw_trials k rr g2') as [r2 h2].
  cbn [fst] in *. rewrite IH; [reflexivity|].
  intros i Hi. rewrite S1, S2. apply H. lia.
Qed.

Lemma draw_trials_shape k rr g :
  rr <> [] ->
  length (fst (draw_trials k rr g)) = k
  /\ Forall (fun rs => length rs = path_length /\ Forall (fun r => In r rr) rs)
            (fst (draw_trials k rr g)).
Proof.
  intros Hrr. revert g. induction k as [|k IH]; intros g; cbn [draw_trials fst];
    [auto|].
  pose proof (choice_length rr path_length g) as L.
  pose proof (choice_in rr path_length g) as I.
  destruct (choice rr path_length g) as [rs g'] eqn:C.
  specialize (IH g'). destruct (draw_trials k rr g') as [rss g'']. cbn [fst] in *.
  destruct IH as [IH1 IH2]. split; [cbn [length]; congruence|].
  constructor; [|exact IH2]. split; [exact L|].
  apply Forall_forall. intros r Hr. apply I; assumption.
Qed.

Lemma sim_loop_count k rr e t st h g :
  sim_loop k rr e t st h g =
  (h + Z.of_nat (length (filter (fun rs => trial_success e t st (price_path e rs))
                                (fst (draw_trials k rr g)))),
   snd (draw_trials k rr g)).
Proof.
  revert h g. induction k as [|k IH]; intros h g; cbn [sim_loop draw_trials].
  - cbn [fst snd filter length]. f_equal. lia.
  - destruct (choice rr path_length g) as [rs g'] eqn:C.
    rewrite IH. destruct (draw_trials k rr g') as [rss g''] eqn:D.
    cbn [fst snd filter].
    destruct (trial_success e t st (price_path e rs)); cbn [length]; f_equal; lia.
Qed.

Lemma trial_success_iff e t st path :
  trial_success e t st path = true <->
  flt_ge (np_max path) t = true
  \/ (flt_le (np_min path) st = false /\ flt_gt (last path NaN) e = true).
Proof.
  unfold trial_success.
  destruct (flt_ge (np_max path) t), (flt_le (np_min path) st),
           (flt_gt (last path NaN) e); intuition discriminate.
Qed.

Lemma sorted_closes_nonempty sd closes :
  sorted_closes sd = Ok closes -> time_series sd <> [].
Proof.
  intros Hc E. unfold sorted_closes, column in Hc. rewrite E in Hc. discriminate.
Qed.

Lemma ratio_bounds (h n : Z) :
  0 <= h <= n -> 0 < n -> (0 <= inject_Z h / inject_Z n <= 1)%Q.
Proof.
  intros Hh Hn. assert (Hq : (0 < inject_Z n)%Q) by (unfold Qlt; simpl; lia).
  split.
  - apply Qle_shift_div_l; [exact Hq|]. rewrite Qmult_0_l.
    unfold Qle; simpl; lia.
  - apply Qle_shift_div_r; [exact Hq|]. rewrite Qmult_1_l.
    unfold Qle; simpl; lia.
Qed.

(** C1 (as stated, refuted): the classification is not independent of the
    order of the sampled returns.  From the same lookback set, the draws
    (0.5, -0.5, 0, ...) and (-0.5, 0.5, 0, ...) are permutations of each
    other; the first path reaches 150 >= 140 (success), the second tops out at
    75, ends below the entry price 100 and fails. *)
Lemma mc_order_of_returns_matters :
  let rr := recent_returns_of [F 100; F 150; F 75; F 75; F 75; F 75] 60 in
  Permutation (fst (choice rr path_length gen_up_down))
              (fst (choice rr path_length gen_down_up))
  /\ fst (estimate_success_probability mc_stock (F 100) (F 140) (F 10) 1 60
            gen_up_down) = Ok (F 1)
  /\ fst (estimate_success_probability mc_stock (F 100) (F 140) (F 10) 1 60
            gen_down_up) = Ok (F 0).
Proof.
  intros rr. split; [|split; vm_compute; reflexivity].
  vm_compute. apply perm_swap.
Qed.

(** C1 (amended): when the closes parse and at least 5 lookback returns are
    available, with [n_simulations > 0]: the simulator draws [n_simulations]
    vectors of 30 returns, each taken from the lookback return set; a trial is
    a success exactly when the maximum of its price path reaches
    [target_price] (whatever happened before on the path, the stop included),
    or else when the path's minimum stays above [stop_loss] and the final
    price exceeds [entry_price]; the result is successes / trials, in [0,1],
    and the global random state advances past the draws. *)
Theorem mc_success_probability :
  forall sd closes entry target stop n lb g,
    sorted_closes sd = Ok closes ->
    (5 <= length (recent_returns_of closes lb))%nat ->
    0 < n ->
    let rr := recent_returns_of closes lb in
    let samples := fst (draw_trials (Z.to_nat n) rr g) in
    let hits := Z.of_nat (length (filter
                  (fun rs => trial_success entry target stop (price_path entry rs))
                  samples)) in
    estimate_success_probability sd entry target stop n lb g
      = (Ok (F (Qred (inject_Z hits / inject_Z n))), snd (draw_trials (Z.to_nat n) rr g))
    /\ length samples = Z.to_nat n
    /\ Forall (fun rs => length rs = path_length /\ Forall (fun r => In r rr) rs)
              samples
    /\ (0 <= inject_Z hits / inject_Z n <= 1)%Q
    /\ (forall path,
          trial_success entry target stop path = true <->
          flt_ge (np_max path) target = true
          \/ (flt_le (np_min path) stop = false
              /\ flt_gt (last path NaN) entry = true)).
Proof.
  intros sd closes entry target stop n lb g Hc Hlen Hn rr samples hits.
  assert (Hrr : rr <> []) by (intros E; unfold rr in E; rewrite E in Hlen; simpl in Hlen; lia).
  destruct (draw_trials_shape (Z.to_nat n) rr g Hrr) as [L Sh].
  assert (Hh : 0 <= hits <= n).
  { unfold hits. split; [lia|].
    pose proof (filter_length_le
                  (fun rs => trial_success entry target stop (price_path entry rs))
                  samples) as Hf.
    fold samples in L. lia. }
  split; [|split; [exact L|split; [exact Sh|split; [apply ratio_bounds; lia|]]]].
  - unfold estimate_success_probability.
    pose proof (sorted_closes_nonempty sd closes Hc) as Hne.
    destruct (time_series sd) eqn:E; [contradiction|].
    unfold mbind, mlift. rewrite Hc. unfold simulate. fold rr.
    replace (Z.of_nat (length rr) <? 5) with false
      by (symmetry; apply Z.ltb_ge; unfold rr; lia).
    rewrite sim_loop_count. fold samples hits.
    unfold pyintdiv. replace (n =? 0) with false by (symmetry; apply Z.eqb_neq; lia).
    reflexivity.
  - intros path. apply trial_success_iff.
Qed.

Lemma mc_success_probability_witness :
  estimate_success_probability mc_stock (F 100) (F 140) (F 10) 1 60 gen_up_down
  = (Ok (F (Qred (inject_Z 1 / inject_Z 1))), snd (draw_trials 1 (recent_returns_of
       [F 100; F 150; F 75; F 75; F 75; F 75] 60) gen_up_down)).
Proof.
  refine (proj1 (mc_success_probability mc_stock [F 100; F 150; F 75; F 75; F 75; F 75]
                   (F 100) (F 140) (F 10) 1 60 gen_up_down _ _ _)).
  - reflexivity.
  - vm_compute. lia.
  - lia.
Defined.

(** C8 (as stated, refuted): the simulator has no generator parameter; it
    reads numpy's global state.  Seeded once ([gen_seeded]), two runs on the
    same inputs return 1 and then 0, because the second run continues the
    global stream after the 30 draws of the first. *)
Lemma mc_two_runs_after_one_seed_differ :
  fst (estimate_success_probability mc_stock (F 100) (F 140) (F 10) 1 60 gen_seeded)
    = Ok (F 1)
  /\ fst (estimate_success_probability mc_stock (F 100) (F 140) (F 10) 1 60
            (snd (estimate_success_probability mc_stock (F 100) (F 140) (F 10) 1 60
                    gen_seeded)))
    = Ok (F 0).
Proof. split; vm_compute; reflexivity. Qed.

(** C8 (amended): a run is a function of the inputs and of the global random
    state: two runs started from states that agree on their first
    [30 * n_simulations] draws return the same result.  A run that simulates
    (non-empty series, closes that parse, at least 5 lookback returns) leaves
    the global state advanced by exactly [30 * n_simulations] draws; a run that
    returns the 0.5 fallback, or raises on the closes, leaves it unchanged. *)
Theorem mc_deterministic_in_global_state :
  forall sd entry target stop n lb g1 g2,
    (forall i, (i < path_length * Z.to_nat n)%nat -> g1 i = g2 i) ->
    fst (estimate_success_probability sd entry target stop n lb g1)
      = fst (estimate_success_probability sd entry target stop n lb g2)
    /\ (exists k, (k = 0 \/ k = path_length * Z.to_nat n)%nat
       /\ forall i, snd (estimate_success_probability sd entry target stop n lb g1) i
                    = g1 (k + i)%nat)
    /\ (forall closes,
          time_series sd <> [] -> sorted_closes sd = Ok closes ->
          (5 <= length (recent_returns_of closes lb))%nat ->
          forall i, snd (estimate_success_probability sd entry target stop n lb g1) i
                    = g1 (path_length * Z.to_nat n + i)%nat)
    /\ ((time_series sd = [] \/ (exists e, sorted_closes sd = Raise e)
         \/ exists closes, sorted_closes sd = Ok closes
                           /\ (length (recent_returns_of closes lb) < 5)%nat) ->
        snd (estimate_success_probability sd entry target stop n lb g1) = g1).
Proof.
  intros sd entry target stop n lb g1 g2 H.
  split; [|split; [|split]].
  - unfold estimate_success_probability.
    destruct (time_series sd); [reflexivity|].
    unfold mbind, mlift. destruct (sorted_closes sd) as [closes|e]; [|reflexivity].
    unfold simulate.
    destruct (Z.of_nat (length (recent_returns_of closes lb)) <? 5); [reflexivity|].
    rewrite !sim_loop_count.
    rewrite (draw_trials_agree _ _ g1 g2 H). reflexivity.
  - unfold estimate_success_probability.
    destruct (time_series sd).
    { exists O. split; [left; reflexivity|]. reflexivity. }
    unfold mbind, mlift. destruct (sorted_closes sd) as [closes|e].
    2:{ exists O. split; [left; reflexivity|]. reflexivity. }
    unfold simulate.
    destruct (Z.of_nat (length (recent_returns_of closes lb)) <? 5).
    { exists O. split; [left; reflexivity|]. reflexivity. }
    rewrite sim_loop_count.
    exists (path_length * Z.to_nat n)%nat. split; [right; reflexivity|].
    intros i. apply draw_trials_state.
  - intros closes Hne Hc H5 i. unfold estimate_success_probability.
    destruct (time_series sd); [contradiction|].
    unfold mbind, mlift. rewrite Hc. unfold simulate.
    replace (Z.of_nat (length (recent_returns_of closes lb)) <? 5) with false
      by (symmetry; apply Z.ltb_ge; lia).
    rewrite sim_loop_count. apply draw_trials_state.
  - intros [E|[[e Hc]|(closes & Hc & H5)]]; unfold estimate_success_probability.
    + rewrite E. reflexivity.
    + destruct (time_series sd); [reflexivity|].
      unfold mbind, mlift. rewrite Hc. reflexivity.
    + destruct (time_series sd); [reflexivity|].
      unfold mbind, mlift. rewrite Hc. unfold simulate.
      replace (Z.of_nat (length (recent_returns_of closes lb)) <? 5) with true
        by (symmetry; apply Z.ltb_lt; lia).
      reflexivity.
Qed.

Lemma mc_deterministic_in_global_state_witness :
  fst (estimate_success_probability mc_stock (F 100) (F 140) (F 10) 1 60 gen_seeded)
  = fst (estimate_success_probability mc_stock (F 100) (F 140) (F 10) 1 60
           (fun i => if (i <? 30)%nat then O else 4%nat))
  /\ snd (estimate_success_probability mc_stock (F 100) (F 140) (F 10) 1 60 gen_seeded) 0%nat
     = gen_seeded (path_length * 1 + 0)%nat.
Proof.
  split.
  - refine (proj1 (mc_deterministic_in_global_state mc_stock (F 100) (F 140) (F 10)
                     1 60 gen_seeded _ _)).
    intros i Hi. unfold gen_seeded. simpl in Hi.
    rewrite (proj2 (Nat.ltb_lt i 30) Hi). reflexivity.
  - refine (proj1 (proj2 (proj2 (mc_deterministic_in_global_state mc_stock (F 100)
              (F 140) (F 10) 1 60 gen_seeded gen_seeded (fun i _ => eq_refl))))
              [F 100; F 150; F 75; F 75; F 75; F 75] _ _ _ 0%nat).
    + vm_compute. discriminate.
    + reflexivity.
    + vm_compute. lia.
Defined.

(** *** Rationals behind [flt] *)

Lemma qltb_iff a b : qltb a b = true <-> (a < b)%Q.
Proof.
  unfold qltb. rewrite negb_true_iff. split.
  - intros H. apply Qnot_le_lt. intros H'. apply Qle_bool_iff in H'. congruence.
  - intros H. destruct (Qle_bool b a) eqn:E; [|reflexivity].
    apply Qle_bool_iff in E. exfalso. apply (Qlt_not_le a b); assumption.
Qed.

Lemma qltb_false a b : qltb a b = false <-> (b <= a)%Q.
Proof.
  unfold qltb. rewrite negb_false_iff. apply Qle_bool_iff.
Qed.

Lemma qzero_pos c : (0 < c)%Q -> qzero c = false.
Proof.
  intros H. unfold qzero. destruct (Qeq_bool c 0) eqn:E; [|reflexivity].
  apply Qeq_bool_iff in E. rewrite E in H. discriminate.
Qed.

Lemma normalize_rule c raw :
  (0 < c)%Q -> norm_rule (F c) raw (normalize (F c) raw).
Proof.
  intros Hc. unfold norm_rule, normalize, pymin.
  split; [reflexivity|].
  destruct raw as [q| | |]; cbn [fdiv fisnan].
  - rewrite (qzero_pos c Hc). set (x := Qred (q / c)). cbn [flt_lt flt_le].
    destruct (qltb 1 x) eqn:E; cbn [flt_lt flt_le].
    + apply qltb_iff in E. repeat split; intros H; try discriminate;
        try reflexivity; exfalso.
      * apply qltb_iff in H. apply (Qlt_irrefl x). apply (Qlt_trans _ 1); assumption.
      * apply qltb_iff in H.
        assert (Hx : (x < 0)%Q).
        { unfold x. rewrite Qred_correct. apply Qlt_shift_div_r; [exact Hc|].
          rewrite Qmult_0_l. exact H. }
        apply (Qlt_irrefl x). apply (Qlt_trans _ 1); [|exact E].
        apply (Qlt_trans _ 0); [exact Hx|reflexivity].
    + apply qltb_false in E. repeat split; intros H; try discriminate; try reflexivity.
      * apply Qle_bool_iff. exact E.
      * apply qltb_iff in H. apply qltb_iff. unfold x. rewrite Qred_correct.
        apply Qlt_shift_div_r; [exact Hc|]. rewrite Qmult_0_l. exact H.
  - repeat split; intros H; try discriminate; reflexivity.
  - replace (qltb c 0) with false by (symmetry; apply qltb_false, Qlt_le_weak, Hc).
    cbn [flt_lt flt_le]. repeat split; intros H; try discriminate; reflexivity.
  - replace (qltb c 0) with false by (symmetry; apply qltb_false, Qlt_le_weak, Hc).
    cbn [flt_lt flt_le]. repeat split; intros H; try discriminate; reflexivity.
Qed.

(** C2 (as stated, refuted): a well-formed two-bar series (closes 100 and
    102, volumes 1000) has one daily return, whose [std()] (ddof 1) is NaN, so
    the normalised volatility [min(NaN/0.5, 1.0)] is NaN and is not <= 1.0;
    the radar values of the report start with it. *)
Lemma norm_volatility_nan_two_bars :
  match analyse_risk two_bar_stock (F 110) (F 90) None with
  | RiskReport r =>
      volatility r = NaN
      /\ normalize cap_volatility (volatility r) = NaN
      /\ flt_le (normalize cap_volatility (volatility r)) (F 1) = false
      /\ hd (F 0) (plot r) = NaN
  | RiskError _ => False
  end.
Proof. vm_compute. repeat split. Qed.

(** *** The reward step *)

Lemma mbind_lift_ok {A B} (a : A) (k : A -> M B) g :
  mbind (mlift (Ok a)) k g = k a g.
Proof. reflexivity. Qed.



Lemma pydiv_zero x y : fzero y = true -> pydiv x y = Raise ZeroDivisionError.
Proof. intros H. unfold pydiv. rewrite H. reflexivity. Qed.

Lemma pydiv_nonzero x y : fzero y = false -> pydiv x y = Ok (fdiv x y).
Proof. intros H. unfold pydiv. rewrite H. reflexivity. Qed.


Lemma fzero_F_iff q : fzero (F q) = true <-> (q == 0)%Q.
Proof. apply Qeq_bool_iff. Qed.





(** *** Liquidity and short series *)

(** C6 (code defect): on [volume_rise_stock] the recent average volume (1000)
    exceeds the overall one (20000/21), so the base liquidity risk is -1/20.
    Both user volumes 100 and 1000 exceed 5% of the recent volume, yet the
    larger one gives the smaller liquidity risk: -1/10 < -11/200, because the
    scaling [*= (1 + pct)] makes a negative risk more negative. *)
Lemma liquidity_risk_falls_with_user_volume :
  match analyse_risk volume_rise_stock (F 140) (F 95) (Some (F 100)),
        analyse_risk volume_rise_stock (F 140) (F 95) (Some (F 1000)) with
  | RiskReport r1, RiskReport r2 =>
      recent_avg_volume r1 = F 1000
      /\ volume_impact r1 = Some (F (1 # 10))
      /\ volume_impact r2 = Some (F 1)
      /\ liquidity_risk r1 = F (-11 # 200)
      /\ liquidity_risk r2 = F (-1 # 10)
      /\ flt_lt (liquidity_risk r2) (liquidity_risk r1) = true
  | _, _ => False
  end.
Proof. vm_compute. repeat split. Qed.

(** C7 (as stated, refuted): a one-bar series is not rejected;
    [analyse_risk] returns a full report, with a NaN volatility. *)
Lemma one_bar_series_not_rejected :
  analyse_risk (mkStock [row 1 100 1000] None) (F 110) (F 90) None
  = RiskReport (mkReport "Unknown" (F 100) (F 110) (F 90) None (F 1000) None
                  NaN (F (1 # 10)) (F 0) (F 0) LOW [NaN; F (1 # 3); F 0; F 0; NaN]).
Proof. vm_compute. reflexivity. Qed.

(** C7 (amended): for a one-bar series whose close is a nonzero number and
    whose volume parses, [analyse_risk] raises no error: it returns a report
    (no ["error"] key) whose volatility is NaN (standard deviation of an empty
    return series) and whose bearish frequency is 0. *)
Theorem one_bar_series_report :
  forall d c v sym target stop uv,
    ~ (c == 0)%Q ->
    exists r,
      analyse_risk (mkStock [(d, mkBar (Some (RNum (F c))) (Some (RNum v)))] sym)
        target stop uv = RiskReport r
      /\ current_price r = F c
      /\ volatility r = NaN
      /\ bearish_frequency r = F 0
      /\ ~ In "error"%string (risk_keys (RiskReport r)).
Proof.
  intros d c v sym target stop uv Hc.
  assert (Hz : qzero c = false)
    by (unfold qzero; destruct (Qeq_bool c 0) eqn:E; [|reflexivity];
        apply Qeq_bool_iff in E; contradiction).
  unfold analyse_risk, analyse_risk_body. cbn [time_series].
  cbn [sort_index fold_right insert_row column existsb snd orb map last
       cell_float col_float ebind close_field volume_field].
  unfold scores_of, pydiv. cbn [fzero]. rewrite Hz. cbn [ebind].
  destruct (liquidity_of [v] uv) as [rv lr].
  eexists. split; [reflexivity|]. cbn [current_price volatility bearish_frequency].
  split; [reflexivity|]. split; [reflexivity|]. split; [reflexivity|].
  simpl. intuition discriminate.
Qed.

Lemma one_bar_series_report_witness :
  exists r,
    analyse_risk (mkStock [(1, mkBar (Some (RNum (F 100))) (Some (RNum (F 1000))))] None)
      (F 110) (F 90) None = RiskReport r
    /\ current_price r = F 100 /\ volatility r = NaN /\ bearish_frequency r = F 0
    /\ ~ In "error"%string (risk_keys (RiskReport r)).
Proof.
  apply one_bar_series_report. vm_compute. discriminate.
Defined.

(** ** Further properties of the engine and of the routes *)

(** *** Helpers *)


Lemma inject_Z_pos n : 0 < n -> (0 < inject_Z n)%Q.
Proof. intros H. unfold Qlt; simpl; lia. Qed.

Lemma flt_le_trans a b c :
  flt_le a b = true -> flt_le b c = true -> flt_le a c = true.
Proof.
  destruct a, b, c; cbn [flt_le]; intros H1 H2; try discriminate; try reflexivity.
  apply Qle_bool_iff in H1, H2. apply Qle_bool_iff. exact (Qle_trans _ _ _ H1 H2).
Qed.

Lemma flt_gt_le a b c :
  flt_gt a c = true -> flt_le a b = true -> flt_gt b c = true.
Proof.
  unfold flt_gt. destruct c, a, b; cbn [flt_lt flt_le]; intros H1 H2;
    try discriminate; try reflexivity.
  apply qltb_iff in H1. apply Qle_bool_iff in H2. apply qltb_iff.
  exact (Qlt_le_trans _ _ _ H1 H2).
Qed.

Lemma filter_length_mono {A} (f h : A -> bool) l :
  (forall x, f x = true -> h x = true) ->
  (length (filter f l) <= length (filter h l))%nat.
Proof.
  intros Hfh. induction l as [|x l IH]; cbn [filter]; [constructor|].
  destruct (f x) eqn:Ef.
  - rewrite (Hfh x Ef). cbn [length]. lia.
  - destruct (h x); cbn [length]; lia.
Qed.

Lemma last_map_ne {A B} (f : A -> B) l da db :
  l <> [] -> last (map f l) db = f (last l da).
Proof.
  intros Hl. induction l as [|x l IH]; [contradiction|].
  destruct l as [|y l]; [reflexivity|].
  cbn [map last]. cbn [map last] in IH. apply IH. discriminate.
Qed.

Lemma Forall_perm' {A} (P : A -> Prop) l l' :
  Permutation l l' -> Forall P l -> Forall P l'.
Proof.
  intros Hp H. apply Forall_forall. intros x Hx.
  rewrite Forall_forall in H. apply H. apply (Permutation_in x (Permutation_sym Hp) Hx).
Qed.

(** Sorting the rows. *)

Lemma insert_row_perm e l : Permutation (insert_row e l) (e :: l).
Proof.
  induction l as [|h t IH]; cbn [insert_row]; [reflexivity|].
  destruct (fst e <=? fst h); [reflexivity|].
  rewrite IH. apply perm_swap.
Qed.

Lemma sort_index_perm l : Permutation (sort_index l) l.
Proof.
  induction l as [|x l IH]; [reflexivity|]. unfold sort_index in *. cbn [fold_right].
  rewrite insert_row_perm. constructor. exact IH.
Qed.

Lemma sort_index_nil l : sort_index l = [] -> l = [].
Proof.
  intros H. apply Permutation_nil. rewrite <- H. apply sort_index_perm.
Qed.

Lemma insert_row_comm a b l :
  fst a <> fst b -> insert_row a (insert_row b l) = insert_row b (insert_row a l).
Proof.
  intros Hab. induction l as [|h t IH].
  - cbn [insert_row].
    destruct (Z.leb_spec (fst a) (fst b)), (Z.leb_spec (fst b) (fst a)); try lia;
      reflexivity.
  - cbn [insert_row].
    destruct (Z.leb_spec (fst b) (fst h)) as [Hb|Hb],
             (Z.leb_spec (fst a) (fst h)) as [Ha|Ha]; cbn [insert_row].
    + destruct (Z.leb_spec (fst a) (fst b)), (Z.leb_spec (fst b) (fst a)); try lia;
        cbn [insert_row];
        repeat match goal with
               | |- context [fst ?x <=? fst ?y] =>
                   destruct (Z.leb_spec (fst x) (fst y)); try lia
               end; reflexivity.
    + destruct (Z.leb_spec (fst a) (fst b)); try lia.
      destruct (Z.leb_spec (fst a) (fst h)); try lia.
      destruct (Z.leb_spec (fst b) (fst h)); try lia. reflexivity.
    + destruct (Z.leb_spec (fst b) (fst a)); try lia.
      destruct (Z.leb_spec (fst b) (fst h)); try lia.
      destruct (Z.leb_spec (fst a) (fst h)); try lia. reflexivity.
    + destruct (Z.leb_spec (fst a) (fst h)); try lia.
      destruct (Z.leb_spec (fst b) (fst h)); try lia. rewrite IH. reflexivity.
Qed.

Lemma sort_index_permutation_invariant l l' :
  Permutation l l' -> NoDup (map fst l) -> sort_index l = sort_index l'.
Proof.
  intros Hp. induction Hp as [|x l l' Hp IH|y x l|l l' l'' H1 IH1 H2 IH2]; intros Hnd.
  - reflexivity.
  - unfold sort_index in *. cbn [fold_right]. cbn [map] in Hnd.
    inversion Hnd as [|? ? _ Hnd']. rewrite (IH Hnd'). reflexivity.
  - unfold sort_index. cbn [fold_right]. cbn [map] in Hnd.
    inversion Hnd as [|? ? Hy _]. apply insert_row_comm.
    intros E. apply Hy. rewrite E. left. reflexivity.
  - rewrite (IH1 Hnd). apply IH2.
    apply (Permutation_NoDup (Permutation_map fst H1) Hnd).
Qed.

(** Lengths of the columns. *)

Lemma column_length key get rows cs :
  column key get rows = Ok cs -> length cs = length rows.
Proof.
  unfold column. destruct (existsb _ rows); intros H; [|discriminate].
  injection H as <-. apply length_map.
Qed.

Lemma col_float_length cs xs : col_float cs = Ok xs -> length xs = length cs.
Proof.
  revert xs. induction cs as [|c cs IH]; intros xs H; cbn [col_float] in H.
  - injection H as <-. reflexivity.
  - ok_inv H. injection H as <-. cbn [length]. f_equal. apply IH. exact Ha0.
Qed.

Lemma sort_index_length l : length (sort_index l) = length l.
Proof. apply Permutation_length, sort_index_perm. Qed.

Lemma sorted_closes_length sd closes :
  sorted_closes sd = Ok closes -> length closes = length (time_series sd).
Proof.
  unfold sorted_closes. intros H. ok_inv H.
  rewrite (col_float_length _ _ H), (column_length _ _ _ _ Ha), sort_index_length.
  reflexivity.
Qed.

Lemma column_missing key get rows :
  Forall (fun r => get (snd r) = None) rows -> column key get rows = Raise (KeyError key).
Proof.
  intros H. unfold column.
  replace (existsb _ rows) with false; [reflexivity|].
  symmetry. induction H as [|r rows Hr _ IH]; [reflexivity|].
  cbn [existsb]. rewrite Hr, IH. reflexivity.
Qed.

Lemma column_present key get rows :
  rows <> [] -> Forall (fun r => get (snd r) <> None) rows ->
  column key get rows = Ok (map (fun r => get (snd r)) rows).
Proof.
  intros Hne H. unfold column.
  destruct rows as [|r rows]; [contradiction|].
  inversion H as [|? ? Hr _]; subst.
  cbn [existsb]. destruct (get (snd r)); [reflexivity|contradiction].
Qed.

Lemma col_float_numbers cs :
  Forall (fun c => exists x, c = Some (RNum x)) cs -> exists xs, col_float cs = Ok xs.
Proof.
  induction 1 as [|c cs [x ->] _ [xs IH]]; [exists []; reflexivity|].
  exists (x :: xs). cbn [col_float cell_float ebind]. rewrite IH. reflexivity.
Qed.

(** Shape of the bearish-frequency pipeline. *)

Lemma with_prev_length f p l : length (with_prev f p l) = length l.
Proof.
  revert p. induction l as [|x l IH]; intros p; cbn [with_prev length]; [|rewrite IH];
    reflexivity.
Qed.

Lemma rolling_mean_length w l : length (rolling_mean w l) = length l.
Proof. unfold rolling_mean. rewrite length_map, length_seq. reflexivity. Qed.

Lemma bool_mean_bounds p l :
  l <> [] -> exists q, bool_mean p l = F q /\ (0 <= q <= 1)%Q.
Proof.
  intros Hl. assert (Hn : 0 < Z.of_nat (length l)) by (destruct l; [contradiction|cbn [length]; lia]).
  unfold bool_mean, fdiv, f_of_Z. rewrite (qzero_pos _ (inject_Z_pos _ Hn)).
  eexists. split; [reflexivity|]. rewrite Qred_correct.
  apply ratio_bounds; [|exact Hn]. pose proof (filter_length_le p l). lia.
Qed.

Lemma bearish_of_bounds closes :
  closes <> [] -> exists q, bearish_of closes = F q /\ (0 <= q <= 1)%Q.
Proof.
  intros Hc. unfold bearish_of. apply bool_mean_bounds.
  intros E. apply (f_equal (@length flt)) in E. cbn [length] in E.
  unfold diff in E.
  rewrite !length_map, length_combine, !length_map, !rolling_mean_length, !length_map,
    !with_prev_length, Nat.min_id in E.
  destruct closes; [contradiction|cbn [length] in E; lia].
Qed.

(** Signs of the volatility. *)

Lemma qsqrt_nonneg a : (0 <= qsqrt a)%Q.
Proof.
  unfold qsqrt, Qle. cbn [Qnum Qden].
  pose proof (Z.sqrt_nonneg (Qnum a * Zpos (Qden a) * 10 ^ 16)). lia.
Qed.

Lemma fsqrt_cases x :
  fsqrt x = NaN \/ fsqrt x = PInf \/ exists a, fsqrt x = F a /\ (0 <= a)%Q.
Proof.
  destruct x as [q| | |]; cbn [fsqrt]; auto.
  destruct (qltb q 0); auto. right; right. eexists; split; [reflexivity|apply qsqrt_nonneg].
Qed.

Lemma pstd_cases l :
  pstd l = NaN \/ pstd l = PInf \/ exists a, pstd l = F a /\ (0 <= a)%Q.
Proof. unfold pstd. destruct (_ <? 2); [auto|apply fsqrt_cases]. Qed.

Lemma volatility_of_nonneg closes :
  flt_lt (volatility_of closes) (F 0) = false /\ volatility_of closes <> NInf.
Proof.
  unfold volatility_of.
  assert (Hs : fsqrt (f_of_Z 252) = F (qsqrt (inject_Z 252))) by reflexivity.
  assert (Hc : (0 < qsqrt (inject_Z 252))%Q) by (unfold Qlt; vm_compute; reflexivity).
  rewrite Hs. destruct (pstd_cases (dropna (pct_change closes))) as [-> | [-> | (a & -> & Ha)]].
  - split; [reflexivity|discriminate].
  - cbn [fmul]. unfold inf_times. rewrite (qzero_pos _ Hc).
    replace (qltb (qsqrt (inject_Z 252)) 0) with false
      by (symmetry; apply qltb_false, Qlt_le_weak, Hc).
    split; [reflexivity|discriminate].
  - cbn [fmul flt_lt]. split; [|discriminate]. apply qltb_false.
    rewrite Qred_correct. apply Qmult_le_0_compat; [exact Ha|apply Qlt_le_weak, Hc].
Qed.

(** Anatomy of a successful body, volume side. *)
Lemma body_ok_volumes sd t s u r :
  analyse_risk_body sd t s u = Ok r ->
  exists volumes,
    length volumes = length (time_series sd)
    /\ recent_avg_volume r = fst (liquidity_of volumes u)
    /\ liquidity_risk r = snd (liquidity_of volumes u)
    /\ user_volume r = u
    /\ volume_impact r = (if truthy u
                          then match u with
                               | Some x => Some (fdiv x (recent_avg_volume r))
                               | None => None
                               end
                          else None).
Proof.
  unfold analyse_risk_body. intros H. ok_inv H. injection H as <-.
  exists a3. cbn [recent_avg_volume liquidity_risk user_volume volume_impact].
  unfold scores_of in Ha4. ok_inv Ha4.
  destruct (liquidity_of a3 u) as [rv lr] eqn:L. injection Ha4 as <-.
  cbn [s_recent_volume s_liquidity fst snd].
  repeat split; try reflexivity.
  rewrite (col_float_length _ _ Ha3), (column_length _ _ _ _ Ha2), sort_index_length.
  reflexivity.
Qed.


(** *** get_rating *)

Lemma flt_gt_weaken x a b :
  (b <= a)%Q -> flt_gt x (F a) = true -> flt_gt x (F b) = true.
Proof.
  intros Hba. unfold flt_gt. destruct x; cbn [flt_lt]; try discriminate; try reflexivity.
  intros H. apply qltb_iff in H. apply qltb_iff. exact (Qle_lt_trans _ _ _ Hba H).
Qed.

(** [get_rating] compares both ratios with strict thresholds: the rating is
    at least FAIR exactly when Sharpe > 0.5 and risk/reward > 1, at least GOOD
    exactly when Sharpe > 1 and risk/reward > 1.5, and EXCELLENT exactly when
    Sharpe > 1.5 and risk/reward > 2.  Hence it is monotone: raising either
    ratio never lowers the rating; a NaN in either argument gives WEAK. *)
Theorem get_rating_monotone :
  (forall s r,
      ((3 <= rating_rank (get_rating s r))%nat
         <-> flt_gt s (F (3 # 2)) && flt_gt r (F 2) = true)
      /\ ((2 <= rating_rank (get_rating s r))%nat
         <-> flt_gt s (F 1) && flt_gt r (F (3 # 2)) = true)
      /\ ((1 <= rating_rank (get_rating s r))%nat
         <-> flt_gt s (F (1 # 2)) && flt_gt r (F 1) = true))
  /\ (forall s1 s2 r1 r2,
      flt_le s1 s2 = true -> flt_le r1 r2 = true ->
      (rating_rank (get_rating s1 r1) <= rating_rank (get_rating s2 r2))%nat)
  /\ (forall x, get_rating NaN x = WEAK /\ get_rating x NaN = WEAK).
Proof.
  split; [|split].
  - intros s r.
    pose proof (flt_gt_weaken s (3 # 2) 1 ltac:(unfold Qle; cbn; lia)) as S1.
    pose proof (flt_gt_weaken s 1 (1 # 2) ltac:(unfold Qle; cbn; lia)) as S2.
    pose proof (flt_gt_weaken r 2 (3 # 2) ltac:(unfold Qle; cbn; lia)) as R1.
    pose proof (flt_gt_weaken r (3 # 2) 1 ltac:(unfold Qle; cbn; lia)) as R2.
    unfold get_rating. revert S1 S2 R1 R2.
    destruct (flt_gt s (F (3 # 2))), (flt_gt s (F 1)), (flt_gt s (F (1 # 2))),
      (flt_gt r (F 2)), (flt_gt r (F (3 # 2))), (flt_gt r (F 1));
      intros S1 S2 R1 R2;
      try (exfalso; match goal with H : true = true -> false = true |- _ =>
                      discriminate (H eq_refl) end);
      cbn [andb rating_rank]; repeat split; intros;
      first [reflexivity | discriminate | lia].
  - intros s1 s2 r1 r2 Hs Hr.
    assert (Hm : forall c d, flt_gt s1 c && flt_gt r1 d = true ->
                             flt_gt s2 c && flt_gt r2 d = true).
    { intros c d H. apply andb_true_iff in H as [H1 H2].
      apply andb_true_iff. split; eapply flt_gt_le; eassumption. }
    unfold get_rating.
    destruct (flt_gt s1 (F (3 # 2)) && flt_gt r1 (F 2)) eqn:E1.
    { rewrite (Hm _ _ E1). constructor. }
    destruct (flt_gt s1 (F 1) && flt_gt r1 (F (3 # 2))) eqn:E2.
    { rewrite (Hm _ _ E2).
      repeat match goal with |- context [if ?c then _ else _] => destruct c end;
      cbn; lia. }
    destruct (flt_gt s1 (F (1 # 2)) && flt_gt r1 (F 1)) eqn:E3.
    { rewrite (Hm _ _ E3).
      repeat match goal with |- context [if ?c then _ else _] => destruct c end;
      cbn; lia. }
    cbn. lia.
  - intros x. unfold get_rating, flt_gt. destruct x; cbn [flt_lt andb];
      split; try reflexivity; repeat (destruct (qltb _ _)); reflexivity.
Qed.

Lemma get_rating_monotone_witness :
  get_rating (F 0) (F 0) = WEAK /\ get_rating (F 2) (F 3) = EXCELLENT
  /\ (rating_rank (get_rating (F 0) (F 0)) <= rating_rank (get_rating (F 2) (F 3)))%nat
  /\ (3 <= rating_rank (get_rating (F 2) (F 3)))%nat.
Proof.
  split; [reflexivity|]. split; [reflexivity|]. split.
  - apply (proj1 (proj2 get_rating_monotone)); reflexivity.
  - apply (proj1 (proj1 get_rating_monotone (F 2) (F 3))). reflexivity.
Defined.

(** *** Bounds of the reported risk values *)

(** In every report, the bearish frequency is a number in [0, 1]. *)
Theorem bearish_frequency_in_unit_interval :
  forall sd target stop uv r,
    analyse_risk sd target stop uv = RiskReport r ->
    exists q, bearish_frequency r = F q /\ (0 <= q <= 1)%Q.
Proof.
  intros sd target stop uv r H. apply analyse_risk_report in H as [Hne Hb].
  apply body_ok_inv in Hb as (closes & volumes & sc & Hc & Hs & _ & _ & _ & _ & _ & Hbf & _).
  apply scores_of_inv in Hs as (_ & _ & _ & _ & _ & _ & _ & _ & Hsb).
  rewrite Hbf, Hsb. apply bearish_of_bounds.
  intros E. apply sorted_closes_length in Hc. rewrite E in Hc.
  destruct (time_series sd); [contradiction|discriminate].
Qed.

Lemma bearish_frequency_in_unit_interval_witness :
  exists q, bearish_frequency
              match analyse_risk three_bar_stock (F 110) (F 90) None with
              | RiskReport r => r
              | RiskError _ => mkReport EmptyString NaN NaN NaN None NaN None NaN NaN NaN NaN LOW []
              end = F q /\ (0 <= q <= 1)%Q.
Proof.
  apply (bearish_frequency_in_unit_interval three_bar_stock (F 110) (F 90) None).
  vm_compute. reflexivity.
Defined.

(** In every report, the volatility is never negative: it is NaN, +inf or a
    number >= 0. *)
Theorem volatility_never_negative :
  forall sd target stop uv r,
    analyse_risk sd target stop uv = RiskReport r ->
    flt_lt (volatility r) (F 0) = false /\ volatility r <> NInf.
Proof.
  intros sd target stop uv r H. apply analyse_risk_report in H as [_ Hb].
  apply body_ok_inv in Hb as (closes & volumes & sc & _ & Hs & _ & _ & Hv & _).
  apply scores_of_inv in Hs as (_ & _ & _ & _ & _ & _ & Hsv & _).
  rewrite Hv, Hsv. apply volatility_of_nonneg.
Qed.

Lemma volatility_never_negative_witness :
  flt_lt (volatility
            match analyse_risk three_bar_stock (F 110) (F 90) None with
            | RiskReport r => r
            | RiskError _ => mkReport EmptyString NaN NaN NaN None NaN None NaN NaN NaN NaN LOW []
            end) (F 0) = false.
Proof.
  apply (volatility_never_negative three_bar_stock (F 110) (F 90) None).
  vm_compute. reflexivity.
Defined.

(** *** Liquidity *)





(** *** Input handling of analyse_risk and estimate_success_probability *)

Lemma estimate_sort_congr rows rows' sym entry target stop n lb :
  rows <> [] -> rows' <> [] -> sort_index rows = sort_index rows' ->
  estimate_success_probability (mkStock rows sym) entry target stop n lb
  = estimate_success_probability (mkStock rows' sym) entry target stop n lb.
Proof.
  intros Hne Hne' Hs. unfold estimate_success_probability, sorted_closes.
  cbn [time_series].
  destruct rows as [|x l]; [contradiction|]. destruct rows' as [|y l']; [contradiction|].
  rewrite Hs. reflexivity.
Qed.

(** The order of the rows of the time series does not matter (the dates of a
    JSON object are distinct): [analyse_risk] and [calculate_risk_reward] return
    the same result, and [calculate_risk_reward] the same random state, for any
    permutation of the rows. *)
Theorem row_order_irrelevant :
  forall rows rows' sym target stop uv h rf g,
    Permutation rows rows' -> NoDup (map fst rows) ->
    analyse_risk (mkStock rows sym) target stop uv
      = analyse_risk (mkStock rows' sym) target stop uv
    /\ calculate_risk_reward (mkStock rows sym) target stop uv h rf g
       = calculate_risk_reward (mkStock rows' sym) target stop uv h rf g.
Proof.
  intros rows rows' sym target stop uv h rf g Hp Hnd.
  pose proof (sort_index_permutation_invariant _ _ Hp Hnd) as Hs.
  destruct rows as [|x l].
  { apply Permutation_nil in Hp. subst. split; reflexivity. }
  destruct rows' as [|y l'].
  { apply Permutation_sym, Permutation_nil in Hp. discriminate. }
  assert (HA : analyse_risk (mkStock (x :: l) sym) target stop uv
               = analyse_risk (mkStock (y :: l') sym) target stop uv).
  { unfold analyse_risk, analyse_risk_body. cbn [time_series meta_symbol].
    rewrite Hs. reflexivity. }
  split; [exact HA|].
  unfold calculate_risk_reward. rewrite HA.
  destruct (analyse_risk (mkStock (y :: l') sym) target stop uv) as [m|r]; [reflexivity|].
  cbv zeta.
  rewrite (estimate_sort_congr (x :: l) (y :: l') sym _ _ _ _ _ ltac:(discriminate)
             ltac:(discriminate) Hs).
  reflexivity.
Qed.

Lemma row_order_irrelevant_witness :
  analyse_risk (mkStock [row 3 103 1000; row 1 100 1000; row 2 101 1000] None)
    (F 110) (F 90) None
  = analyse_risk three_bar_stock (F 110) (F 90) None.
Proof.
  refine (proj1 (row_order_irrelevant _ _ None (F 110) (F 90) None 30 (F (4 # 100))
                   gen_seeded _ _)).
  - vm_compute. apply (Permutation_cons_append [_; _] _).
  - vm_compute. repeat constructor; cbn; intuition discriminate.
Defined.

(** When every bar has a numeric close and volume and the most recent bar
    closes at 0, [analyse_risk] returns the error dictionary
    ["Error in risk analysis: float division by zero"] (the drawdown divides by
    the current price). *)
Theorem zero_current_price_error :
  forall sd target stop uv d b q,
    Forall (fun row => (exists c, close_field (snd row) = Some (RNum c))
                       /\ exists v, volume_field (snd row) = Some (RNum v))
           (time_series sd) ->
    last (sort_index (time_series sd)) (0, mkBar None None) = (d, b) ->
    close_field b = Some (RNum (F q)) -> (q == 0)%Q ->
    analyse_risk sd target stop uv
      = RiskError "Error in risk analysis: float division by zero".
Proof.
  intros sd target stop uv d b q Hall Hlast Hb Hq.
  set (rows := sort_index (time_series sd)) in *.
  assert (Hne : rows <> []).
  { intros E. rewrite E in Hlast. cbn in Hlast. injection Hlast as _ <-.
    discriminate Hb. }
  assert (Hall' : Forall (fun row => (exists c, close_field (snd row) = Some (RNum c))
                          /\ exists v, volume_field (snd row) = Some (RNum v)) rows)
    by (apply (Forall_perm' _ _ _ (Permutation_sym (sort_index_perm _)) Hall)).
  assert (Hc : column "4. close" close_field rows
               = Ok (map (fun r => close_field (snd r)) rows)).
  { apply column_present; [exact Hne|].
    eapply Forall_impl; [|exact Hall']. intros r [[c ->] _]. discriminate. }
  assert (Hv : column "5. volume" volume_field rows
               = Ok (map (fun r => volume_field (snd r)) rows)).
  { apply column_present; [exact Hne|].
    eapply Forall_impl; [|exact Hall']. intros r [_ [v ->]]. discriminate. }
  destruct (col_float_numbers (map (fun r => close_field (snd r)) rows)) as [closes Hcf].
  { apply Forall_map. eapply Forall_impl; [|exact Hall']. intros r [[c ->] _]. eauto. }
  destruct (col_float_numbers (map (fun r => volume_field (snd r)) rows)) as [vols Hvf].
  { apply Forall_map. eapply Forall_impl; [|exact Hall']. intros r [_ [v ->]]. eauto. }
  assert (Hts : time_series sd <> []).
  { intros E. apply Hne. unfold rows. rewrite E. reflexivity. }
  assert (Hbody : analyse_risk_body sd target stop uv = Raise ZeroDivisionError).
  { unfold analyse_risk_body. fold rows.
    rewrite Hc. cbn [ebind].
    rewrite (last_map_ne (fun r => close_field (snd r)) rows (0, mkBar None None) None Hne).
    rewrite Hlast. cbn [snd]. rewrite Hb. cbn [cell_float ebind].
    rewrite Hcf. cbn [ebind]. rewrite Hv. cbn [ebind]. rewrite Hvf. cbn [ebind].
    unfold scores_of. rewrite pydiv_zero by (apply fzero_F_iff, Hq).
    reflexivity. }
  unfold analyse_risk. rewrite Hbody.
  destruct (time_series sd); [contradiction|reflexivity].
Qed.

Lemma zero_current_price_error_witness :
  analyse_risk (mkStock [row 1 100 1000; row 2 0 1000] None) (F 110) (F 90) None
  = RiskError "Error in risk analysis: float division by zero".
Proof.
  apply (zero_current_price_error _ _ _ _ 2
           (mkBar (Some (RNum (F 0))) (Some (RNum (F 1000)))) 0).
  - repeat constructor; eexists; reflexivity.
  - reflexivity.
  - reflexivity.
  - reflexivity.
Defined.

(** A non-empty series in which no bar has a "4. close" field: [analyse_risk]
    returns the error dictionary ["Error in risk analysis: '4. close'"], while
    [estimate_success_probability], which has no [try], raises
    [KeyError('4. close')] without drawing. *)
Theorem missing_close_column :
  forall sd entry target stop uv n lb g,
    time_series sd <> [] ->
    Forall (fun row => close_field (snd row) = None) (time_series sd) ->
    analyse_risk sd target stop uv = RiskError "Error in risk analysis: '4. close'"
    /\ estimate_success_probability sd entry target stop n lb g
       = (Raise (KeyError "4. close"), g).
Proof.
  intros sd entry target stop uv n lb g Hne Hall.
  assert (Hc : column "4. close" close_field (sort_index (time_series sd))
               = Raise (KeyError "4. close")).
  { apply column_missing.
    apply (Forall_perm' _ _ _ (Permutation_sym (sort_index_perm _)) Hall). }
  split.
  - assert (Hb : analyse_risk_body sd target stop uv = Raise (KeyError "4. close"))
      by (unfold analyse_risk_body; rewrite Hc; reflexivity).
    unfold analyse_risk. rewrite Hb.
    destruct (time_series sd); [contradiction|reflexivity].
  - assert (Hs : sorted_closes sd = Raise (KeyError "4. close"))
      by (unfold sorted_closes; rewrite Hc; reflexivity).
    unfold estimate_success_probability, mbind, mlift. rewrite Hs.
    destruct (time_series sd); [contradiction|reflexivity].
Qed.

Lemma missing_close_column_witness :
  analyse_risk (mkStock [(1, mkBar None (Some (RNum (F 1000))))] None) (F 110) (F 90) None
  = RiskError "Error in risk analysis: '4. close'".
Proof.
  refine (proj1 (missing_close_column _ (F 100) (F 110) (F 90) None 1000 60 gen_seeded _ _)).
  - discriminate.
  - repeat constructor.
Defined.

(** *** The Monte Carlo estimate *)

Lemma ok_F_inj a b : @Ok flt (F a) = Ok (F b) -> a = b.
Proof. intros H. injection H. auto. Qed.

Lemma trial_success_mono e t1 t2 s1 s2 path :
  flt_le t2 t1 = true -> flt_le s2 s1 = true ->
  trial_success e t1 s1 path = true -> trial_success e t2 s2 path = true.
Proof.
  intros Ht Hs. unfold trial_success, flt_ge.
  destruct (flt_le t1 (np_max path)) eqn:E1.
  { rewrite (flt_le_trans _ _ _ Ht E1). reflexivity. }
  destruct (flt_le (np_min path) s1) eqn:E2; [discriminate|]. intros H.
  destruct (flt_le t2 (np_max path)); [reflexivity|].
  destruct (flt_le (np_min path) s2) eqn:E3; [|exact H].
  rewrite (flt_le_trans _ _ _ E3 Hs) in E2. discriminate.
Qed.

Lemma draw_trials_nil k g : fst (draw_trials k [] g) = [] -> k = O.
Proof.
  destruct k; [reflexivity|]. cbn [draw_trials].
  destruct (choice [] path_length g), (draw_trials k [] _). discriminate.
Qed.

(** With the same inputs and the same random state, a lower (or equal) target
    price and a lower (or equal) stop loss never give a smaller success
    probability. *)
Theorem success_probability_monotone :
  forall sd entry t1 t2 s1 s2 n lb g p1 p2,
    flt_le t2 t1 = true -> flt_le s2 s1 = true ->
    fst (estimate_success_probability sd entry t1 s1 n lb g) = Ok (F p1) ->
    fst (estimate_success_probability sd entry t2 s2 n lb g) = Ok (F p2) ->
    (p1 <= p2)%Q.
Proof.
  intros sd entry t1 t2 s1 s2 n lb g p1 p2 Ht Hs H1 H2.
  unfold estimate_success_probability in H1, H2.
  destruct (time_series sd).
  { cbn in H1, H2. injection H1 as <-. injection H2 as <-. apply Qle_refl. }
  unfold mbind, mlift in H1, H2. destruct (sorted_closes sd) as [closes|e];
    [|discriminate].
  unfold simulate in H1, H2.
  destruct (Z.of_nat (length (recent_returns_of closes lb)) <? 5).
  { cbn in H1, H2. injection H1 as <-. injection H2 as <-. apply Qle_refl. }
  rewrite sim_loop_count in H1, H2.
  unfold pyintdiv in H1, H2. destruct (n =? 0) eqn:En; [discriminate|].
  apply ok_F_inj in H1, H2. rewrite <- H1, <- H2, !Qred_correct.
  set (samples := fst (draw_trials (Z.to_nat n) (recent_returns_of closes lb) g)).
  pose proof (filter_length_mono
                (fun rs => trial_success entry t1 s1 (price_path entry rs))
                (fun rs => trial_success entry t2 s2 (price_path entry rs)) samples
                (fun rs => trial_success_mono entry t1 t2 s1 s2 _ Ht Hs)) as Hm.
  apply Z.eqb_neq in En.
  destruct (Z_lt_le_dec n 0) as [Hn|Hn].
  - assert (E0 : fst (draw_trials (Z.to_nat n) (recent_returns_of closes lb) g) = [])
      by (replace (Z.to_nat n) with O by lia; reflexivity).
    unfold samples. rewrite E0. apply Qle_refl.
  - unfold Qdiv. apply Qmult_le_compat_r.
    + unfold Qle; cbn. lia.
    + apply Qinv_le_0_compat. unfold Qle; cbn. lia.
Qed.

Lemma success_probability_monotone_witness :
  (1 <= 1)%Q.
Proof.
  apply (success_probability_monotone mc_stock (F 100) (F 140) (F 120) (F 10) (F 5) 1 60
           gen_up_down); vm_compute; reflexivity.
Defined.

(** With at least 5 lookback returns: [n_simulations = 0] raises
    [ZeroDivisionError] and a negative [n_simulations] returns 0; neither
    draws from the random state. *)
Theorem nonpositive_simulations :
  forall sd closes entry target stop n lb g,
    sorted_closes sd = Ok closes ->
    (5 <= length (recent_returns_of closes lb))%nat ->
    (n = 0 -> estimate_success_probability sd entry target stop n lb g
              = (Raise ZeroDivisionError, g))
    /\ (n < 0 -> estimate_success_probability sd entry target stop n lb g = (Ok (F 0), g)).
Proof.
  intros sd closes entry target stop n lb g Hc Hlen.
  assert (Hrun : (n <= 0) -> estimate_success_probability sd entry target stop n lb g
                             = (pyintdiv 0 n, g)).
  { intros Hn. unfold estimate_success_probability.
    pose proof (sorted_closes_nonempty sd closes Hc) as Hne.
    destruct (time_series sd) eqn:E; [contradiction|].
    unfold mbind, mlift. rewrite Hc. unfold simulate.
    replace (Z.of_nat (length (recent_returns_of closes lb)) <? 5) with false
      by (symmetry; apply Z.ltb_ge; lia).
    replace (Z.to_nat n) with O by lia. reflexivity. }
  split.
  - intros ->. rewrite Hrun by lia. reflexivity.
  - intros Hn. rewrite Hrun by lia. unfold pyintdiv.
    replace (n =? 0) with false by (symmetry; apply Z.eqb_neq; lia).
    rewrite (Qred_complete (inject_Z 0 / inject_Z n) 0) by (unfold Qdiv; ring).
    reflexivity.
Qed.

Lemma nonpositive_simulations_witness :
  estimate_success_probability mc_stock (F 100) (F 140) (F 10) 0 60 gen_seeded
  = (Raise ZeroDivisionError, gen_seeded).
Proof.
  refine (proj1 (nonpositive_simulations mc_stock [F 100; F 150; F 75; F 75; F 75; F 75]
                   (F 100) (F 140) (F 10) 0 60 gen_seeded _ _) eq_refl).
  - reflexivity.
  - vm_compute. lia.
Defined.

(** *** calculate_risk_reward *)

Lemma pair_ok_inj {A} (a b : A) (g1 g2 : gen) :
  (@Ok A a, g1) = (Ok b, g2) -> a = b /\ g1 = g2.
Proof. intros H. injection H. auto. Qed.

Lemma estimate_result_bounds sd entry target stop n lb g x g' :
  estimate_success_probability sd entry target stop n lb g = (Ok x, g') -> 0 < n ->
  exists q, x = F q /\ (0 <= q <= 1)%Q
    /\ exists k, (k = 0 \/ k = path_length * Z.to_nat n)%nat
       /\ forall i, g' i = g (k + i)%nat.
Proof.
  intros H Hn.
  assert (Hhalf : (0 <= 1 # 2 <= 1)%Q) by (split; unfold Qle; cbn; lia).
  unfold estimate_success_probability in H.
  destruct (time_series sd).
  { apply pair_ok_inj in H as [<- <-]. exists (1 # 2). split; [reflexivity|].
    split; [exact Hhalf|]. exists O. split; [left; reflexivity|reflexivity]. }
  unfold mbind, mlift in H. destruct (sorted_closes sd) as [closes|e]; [|discriminate].
  unfold simulate in H.
  destruct (Z.of_nat (length (recent_returns_of closes lb)) <? 5) eqn:L.
  { apply pair_ok_inj in H as [<- <-]. exists (1 # 2). split; [reflexivity|].
    split; [exact Hhalf|]. exists O. split; [left; reflexivity|reflexivity]. }
  apply Z.ltb_ge in L.
  rewrite sim_loop_count in H. unfold pyintdiv in H.
  replace (n =? 0) with false in H by (symmetry; apply Z.eqb_neq; lia).
  apply pair_ok_inj in H as [<- <-].
  set (rr := recent_returns_of closes lb) in *.
  assert (Hrr : rr <> []) by (intros E; rewrite E in L; cbn in L; lia).
  destruct (draw_trials_shape (Z.to_nat n) rr g Hrr) as [Ls _].
  eexists. split; [reflexivity|]. split.
  - rewrite Qred_correct. apply ratio_bounds; [|exact Hn].
    pose proof (filter_length_le
                  (fun rs => trial_success entry target stop (price_path entry rs))
                  (fst (draw_trials (Z.to_nat n) rr g))). lia.
  - exists (path_length * Z.to_nat n)%nat. split; [right; reflexivity|].
    intros i. apply draw_trials_state.
Qed.

Lemma calc_full_inv sd target stop uv h rf g r w g' :
  calculate_risk_reward sd target stop uv h rf g = (Ok (RRFull r w), g') ->
  analyse_risk sd target stop uv = RiskReport r
  /\ h <> 0
  /\ reward_rating w = get_rating (sharpe_ratio w) (risk_reward_ratio w)
  /\ estimate_success_probability sd (current_price r) target stop 1000 60 g
       = (Ok (success_probability w), g').
Proof.
  unfold calculate_risk_reward.
  destruct (analyse_risk sd target stop uv) as [m|r0] eqn:A.
  { intros H. discriminate H. }
  cbv zeta. unfold mbind, mlift, mret. cbv beta.
  destruct (pydiv target (current_price r0)) as [q|e]; cbv iota; [|discriminate].
  destruct (pyintdiv 252 h) as [hh|e] eqn:Hh; cbv iota; [|discriminate].
  destruct (pydiv (fsub (fmul (fsub q (F 1)) hh) rf) (volatility r0)) as [sh|e];
    cbv iota; [|discriminate].
  destruct (estimate_success_probability sd (current_price r0) target stop 1000 60 g)
    as [[p|e] g1] eqn:E; cbv iota; [|discriminate].
  destruct (pydiv stop (current_price r0)) as [sc|e]; cbv iota; [|discriminate].
  destruct (pydiv _ _) as [rr|e]; cbv iota; [|discriminate].
  intros H. injection H as <- <- <-.
  split; [reflexivity|]. split.
  - unfold pyintdiv in Hh. destruct (h =? 0) eqn:Z0; [discriminate|].
    apply Z.eqb_neq. exact Z0.
  - split; [reflexivity|exact E].
Qed.

(** A full risk/reward report carries the [analyse_risk] report unchanged,
    needs [holding_period_days <> 0], rates the trade with [get_rating] on its
    own Sharpe and risk/reward ratios, has a success probability in [0, 1], and
    leaves the global random state advanced by 0 or [30 * 1000] draws. *)
Theorem risk_reward_report_shape :
  forall sd target stop uv h rf g r w g',
    calculate_risk_reward sd target stop uv h rf g = (Ok (RRFull r w), g') ->
    analyse_risk sd target stop uv = RiskReport r
    /\ h <> 0
    /\ reward_rating w = get_rating (sharpe_ratio w) (risk_reward_ratio w)
    /\ (exists q, success_probability w = F q /\ (0 <= q <= 1)%Q)
    /\ exists k, (k = 0 \/ k = path_length * 1000)%nat /\ forall i, g' i = g (k + i)%nat.
Proof.
  intros sd target stop uv h rf g r w g' H.
  apply calc_full_inv in H as (HA & Hh & Hr & HE).
  apply estimate_result_bounds in HE as (q & Hq & Hb & k & Hk & Hs); [|lia].
  split; [exact HA|]. split; [exact Hh|]. split; [exact Hr|].
  split; [exists q; split; assumption|].
  exists k. split; [exact Hk|exact Hs].
Qed.

Lemma risk_reward_report_shape_witness :
  match calculate_risk_reward three_bar_stock (F 110) (F 90) (Some (F 100)) 30
          (F (4 # 100)) gen_seeded with
  | (Ok (RRFull r w), _) =>
      analyse_risk three_bar_stock (F 110) (F 90) (Some (F 100)) = RiskReport r
      /\ reward_rating w = get_rating (sharpe_ratio w) (risk_reward_ratio w)
  | _ => False
  end.
Proof.
  destruct (calculate_risk_reward three_bar_stock (F 110) (F 90) (Some (F 100)) 30
              (F (4 # 100)) gen_seeded) as [[[o|r w]|e] g'] eqn:E;
    try (vm_compute in E; discriminate E).
  destruct (risk_reward_report_shape _ _ _ _ _ _ _ _ _ _ E) as (HA & _ & Hr & _).
  split; assumption.
Defined.

Lemma calc_zero_holding sd target stop uv rf g r :
  analyse_risk sd target stop uv = RiskReport r ->
  calculate_risk_reward sd target stop uv 0 rf g = (Raise ZeroDivisionError, g).
Proof.
  intros H. pose proof H as H'. apply analyse_risk_report in H' as [_ Hb].
  apply body_ok_inv in Hb as (closes & volumes & sc & _ & Hs & _).
  apply scores_of_inv in Hs as [Hz _].
  unfold calculate_risk_reward. rewrite H. cbv zeta.
  rewrite (pydiv_nonzero _ _ Hz), mbind_lift_ok. reflexivity.
Qed.

(** [holding_period_days = 0] makes [calculate_risk_reward] raise
    [ZeroDivisionError] (in [252 / holding_period_days]) whenever
    [analyse_risk] succeeds, before any random draw. *)
Theorem zero_holding_period_raises :
  forall sd target stop uv rf g r,
    analyse_risk sd target stop uv = RiskReport r ->
    calculate_risk_reward sd target stop uv 0 rf g = (Raise ZeroDivisionError, g).
Proof.
  intros sd target stop uv rf g r H. exact (calc_zero_holding _ _ _ _ _ _ _ H).
Qed.

Lemma zero_holding_period_raises_witness :
  calculate_risk_reward three_bar_stock (F 110) (F 90) None 0 (F (4 # 100)) gen_seeded
  = (Raise ZeroDivisionError, gen_seeded).
Proof.
  destruct (analyse_risk three_bar_stock (F 110) (F 90) None) as [m|r] eqn:A.
  - vm_compute in A. discriminate A.
  - exact (zero_holding_period_raises _ _ _ _ _ _ _ A).
Defined.

(** *** The routes of src/main.py *)

Lemma prologue_proceed key pre data :
  key_configured key = true -> error_message data = None -> has_note data = false ->
  api_prologue key pre (Fetched data) = Proceed data.
Proof.
  intros Hk He Hn. unfold api_prologue. rewrite Hk, He, Hn. reflexivity.
Qed.

Lemma report_volume_impact sd t s u r :
  analyse_risk sd t s (Some u) = RiskReport r ->
  volume_impact r = (if fzero u then None else Some (fdiv u (recent_avg_volume r)))
  /\ user_volume r = Some u.
Proof.
  intros H. apply analyse_risk_report in H as [_ H].
  apply body_ok_volumes in H as (vs & _ & _ & _ & Hu & Hv).
  rewrite Hv. cbn [truthy]. split; [|exact Hu].
  destruct (fzero u); reflexivity.
Qed.

Lemma rating_split x :
  split_first (rating_label x) = Done (stars (S (S (rating_rank x)))).
Proof. destruct x; reflexivity. Qed.

Lemma rating_class_stars x :
  str_lower (stars (S (S (rating_rank x)))) = stars (S (S (rating_rank x))).
Proof. destruct x; reflexivity. Qed.

Lemma rating_class_unstyled x :
  ~ In ("rating-" ++ stars (S (S (rating_rank x))))%string styled_rating_classes.
Proof.
  destruct x; vm_compute; intros H;
    repeat (destruct H as [H|H]; [discriminate H|]); exact H.
Qed.

Lemma returned_page_inj {P} (p q : P) (g1 g2 : gen) :
  (@Returned (html_out P) (Page p), g1) = (Returned (Page q), g2) -> q = p.
Proof. intros H. injection H. auto. Qed.

Lemma level_class_styled l :
  In ("risk-" ++ str_lower (level_str l))%string styled_risk_classes.
Proof. destruct l; cbn; auto. Qed.

Lemma calc_report_full sd target stop uv h rf g r x :
  analyse_risk sd target stop uv = RiskReport r ->
  fst (calculate_risk_reward sd target stop uv h rf g) = Ok x ->
  exists w, x = RRFull r w.
Proof.
  intros HA. unfold calculate_risk_reward. rewrite HA.
  cbv zeta. unfold mbind, mlift, mret. cbv beta.
  destruct (pydiv target (current_price r)) as [q|e]; cbv iota;
    [|intros H; discriminate H].
  destruct (pyintdiv 252 h) as [hh|e]; cbv iota; [|intros H; discriminate H].
  destruct (pydiv (fsub (fmul (fsub q (F 1)) hh) rf) (volatility r)) as [sh|e];
    cbv iota; [|intros H; discriminate H].
  destruct (estimate_success_probability sd (current_price r) target stop 1000 60 g)
    as [[p|e] g1]; cbv iota; [|intros H; discriminate H].
  destruct (pydiv stop (current_price r)) as [sc|e]; cbv iota; [|intros H; discriminate H].
  destruct (pydiv _ _) as [rr|e]; cbv iota; [|intros H; discriminate H].
  intros H. injection H as <-. eexists. reflexivity.
Qed.

(** Once the API answered with data that [analyse_risk] accepts: the risk
    route fails with an uncaught [TypeError] when [user_volume] is 0 (the page
    formats [volume_impact], which is then [None], with a numeric format spec)
    and returns the analysis page otherwise.  The reward route fails with the
    engine's exception when [calculate_risk_reward] raises (zero volatility,
    [holding_period_days = 0], ...); when it does not raise, the route fails
    with [TypeError] for a zero [user_volume] and returns the page otherwise.
    So with a zero [user_volume] neither route ever returns the page. *)
Theorem zero_user_volume_type_error :
  forall key data target stop u r h rf g,
    key_configured key = true -> error_message data = None -> has_note data = false ->
    analyse_risk (payload data) target stop (Some u) = RiskReport r ->
    (forall e,
       fst (calculate_risk_reward (payload data) target stop (Some u) h rf g) = Raise e ->
       fst (plot_risk_reward_analysis key (Fetched data) target stop u h rf g)
       = Uncaught (EngineExc e))
    /\ (fzero u = true ->
       plot_risk_analysis key (Fetched data) target stop u = Uncaught TypeError
       /\ (forall x,
            fst (calculate_risk_reward (payload data) target stop (Some u) h rf g) = Ok x ->
            fst (plot_risk_reward_analysis key (Fetched data) target stop u h rf g)
            = Uncaught TypeError)
       /\ forall p,
            fst (plot_risk_reward_analysis key (Fetched data) target stop u h rf g)
            <> Returned (Page p))
    /\ (fzero u = false ->
       (exists p, plot_risk_analysis key (Fetched data) target stop u = Returned (Page p))
       /\ forall x,
            fst (calculate_risk_reward (payload data) target stop (Some u) h rf g) = Ok x ->
            exists p, fst (plot_risk_reward_analysis key (Fetched data) target stop u h rf g)
                      = Returned (Page p)).
Proof.
  intros key data target stop u r h rf g Hk He Hn HA.
  pose proof (report_volume_impact _ _ _ _ _ HA) as [Hv Hu].
  assert (Hraise : forall e,
    fst (calculate_risk_reward (payload data) target stop (Some u) h rf g) = Raise e ->
    fst (plot_risk_reward_analysis key (Fetched data) target stop u h rf g)
    = Uncaught (EngineExc e)).
  { intros e Hc. unfold plot_risk_reward_analysis. rewrite (prologue_proceed _ _ _ Hk He Hn).
    destruct (calculate_risk_reward (payload data) target stop (Some u) h rf g) as [res g'].
    cbn [fst] in Hc |- *. subst res. reflexivity. }
  assert (Hok : forall x,
    fst (calculate_risk_reward (payload data) target stop (Some u) h rf g) = Ok x ->
    exists w, fst (plot_risk_reward_analysis key (Fetched data) target stop u h rf g)
              = match render_reward_page r (Some w) with
                | Done p => Returned (Page p)
                | Throw e => Uncaught e
                end).
  { intros x Hc. destruct (calc_report_full _ _ _ _ _ _ _ _ _ HA Hc) as [w ->].
    exists w. unfold plot_risk_reward_analysis. rewrite (prologue_proceed _ _ _ Hk He Hn).
    destruct (calculate_risk_reward (payload data) target stop (Some u) h rf g) as [res g'].
    cbn [fst] in Hc |- *. subst res. reflexivity. }
  split; [exact Hraise|].
  unfold plot_risk_analysis. rewrite (prologue_proceed _ _ _ Hk He Hn), HA.
  split; intros Hz; rewrite Hz in Hv.
  - assert (Hokz : forall x,
      fst (calculate_risk_reward (payload data) target stop (Some u) h rf g) = Ok x ->
      fst (plot_risk_reward_analysis key (Fetched data) target stop u h rf g)
      = Uncaught TypeError).
    { intros x Hc. destruct (Hok x Hc) as [w ->].
      unfold render_reward_page. rewrite Hv. reflexivity. }
    split; [unfold render_risk_page; rewrite Hu, Hv; reflexivity|].
    split; [exact Hokz|].
    intros p Hp.
    assert (Hcase : (exists x, fst (calculate_risk_reward (payload data) target stop
                                      (Some u) h rf g) = Ok x)
                    \/ exists e, fst (calculate_risk_reward (payload data) target stop
                                      (Some u) h rf g) = Raise e)
      by (destruct (fst (calculate_risk_reward (payload data) target stop (Some u) h rf g));
          eauto).
    destruct Hcase as [[x C]|[e C]].
    + rewrite (Hokz x C) in Hp. discriminate Hp.
    + rewrite (Hraise e C) in Hp. discriminate Hp.
  - split.
    + unfold render_risk_page. rewrite Hu, Hv. cbn [format_num]. eexists. reflexivity.
    + intros x Hc. destruct (Hok x Hc) as [w ->].
      unfold render_reward_page. rewrite Hv. cbn [format_num].
      rewrite rating_split. eexists. reflexivity.
Qed.

Lemma zero_user_volume_type_error_witness :
  plot_risk_analysis (Some "demo"%string) (Fetched (mkJson None false three_bar_stock))
    (F 110) (F 90) (F 0) = Uncaught TypeError
  /\ forall p,
       fst (plot_risk_reward_analysis (Some "demo"%string)
              (Fetched (mkJson None false three_bar_stock))
              (F 110) (F 90) (F 0) 30 (F (4 # 100)) gen_seeded)
       <> Returned (Page p).
Proof.
  destruct (analyse_risk three_bar_stock (F 110) (F 90) (Some (F 0))) as [m|r] eqn:A.
  - vm_compute in A. discriminate A.
  - destruct (proj1 (proj2 (zero_user_volume_type_error (Some "demo"%string)
             (mkJson None false three_bar_stock) (F 110) (F 90) (F 0) r 30 (F (4 # 100))
             gen_seeded eq_refl eq_refl eq_refl A)) eq_refl) as (H1 & _ & H3).
    split; [exact H1|exact H3].
Defined.

(** In both plot routes an error reported by [analyse_risk] becomes the HTML
    error page with its message (the reward route then draws nothing), and with
    a successful analysis a [holding_period_days] of 0 makes the reward route
    fail with an uncaught [ZeroDivisionError], also without drawing. *)
Theorem analysis_errors_in_routes :
  forall key data target stop u rf g,
    key_configured key = true -> error_message data = None -> has_note data = false ->
    (forall m h,
       analyse_risk (payload data) target stop (Some u) = RiskError m ->
       plot_risk_analysis key (Fetched data) target stop u = Returned (ErrorPage m)
       /\ plot_risk_reward_analysis key (Fetched data) target stop u h rf g
          = (Returned (ErrorPage m), g))
    /\ (forall r,
       analyse_risk (payload data) target stop (Some u) = RiskReport r ->
       plot_risk_reward_analysis key (Fetched data) target stop u 0 rf g
       = (Uncaught (EngineExc ZeroDivisionError), g)).
Proof.
  intros key data target stop u rf g Hk He Hn.
  unfold plot_risk_analysis, plot_risk_reward_analysis.
  rewrite !(prologue_proceed _ _ _ Hk He Hn).
  split.
  - intros m h HA. rewrite HA. split; [reflexivity|].
    unfold calculate_risk_reward. rewrite HA. reflexivity.
  - intros r HA. rewrite (calc_zero_holding _ _ _ _ _ _ _ HA). reflexivity.
Qed.

Lemma analysis_errors_in_routes_witness :
  plot_risk_reward_analysis (Some "demo"%string) (Fetched (mkJson None false three_bar_stock))
    (F 110) (F 90) (F 100) 0 (F (4 # 100)) gen_seeded
  = (Uncaught (EngineExc ZeroDivisionError), gen_seeded).
Proof.
  destruct (analyse_risk three_bar_stock (F 110) (F 90) (Some (F 100))) as [m|r] eqn:A.
  - vm_compute in A. discriminate A.
  - exact (proj2 (analysis_errors_in_routes (Some "demo"%string)
             (mkJson None false three_bar_stock) (F 110) (F 90) (F 100) (F (4 # 100))
             gen_seeded eq_refl eq_refl eq_refl) r A).
Defined.

(** The CSS class of the risk level on either page is one of the three the
    stylesheets define; the rating class of the reward page is ["rating-"]
    followed by the rating's star emojis (2 to 5 of them), never one of the
    four rating classes the stylesheet defines. *)
Theorem page_css_classes :
  (forall key fetched t s u p,
     plot_risk_analysis key fetched t s u = Returned (Page p) ->
     In (rp_level_class p) styled_risk_classes)
  /\ (forall key fetched t s u h rf g p g',
     plot_risk_reward_analysis key fetched t s u h rf g = (Returned (Page p), g') ->
     In (wp_level_class p) styled_risk_classes
     /\ wp_rating_class p
        = ("rating-" ++ stars (S (S (rating_rank (reward_rating (wp_reward p))))))%string
     /\ ~ In (wp_rating_class p) styled_rating_classes).
Proof.
  split.
  - intros key fetched t s u p H. unfold plot_risk_analysis in H.
    destruct (api_prologue key "Error fetching data: " fetched) as [st d|data];
      [discriminate H|].
    destruct (analyse_risk (payload data) t s (Some u)) as [m|r]; [discriminate H|].
    unfold render_risk_page in H.
    destruct (format_num (user_volume r)) as [uv|e]; [|discriminate H].
    destruct (format_num (volume_impact r)) as [vi|e]; [|discriminate H].
    injection H as <-. apply level_class_styled.
  - intros key fetched t s u h rf g p g' H. unfold plot_risk_reward_analysis in H.
    destruct (api_prologue key "Error fetching data: " fetched) as [st d|data];
      [discriminate H|].
    destruct (calculate_risk_reward (payload data) t s (Some u) h rf g)
      as [[[[m|r]|r w]|e] g1].
    + discriminate H.
    + unfold render_reward_page in H.
      destruct (format_num (volume_impact r)); discriminate H.
    + unfold render_reward_page in H.
      destruct (format_num (volume_impact r)) as [vi|e]; [|discriminate H].
      rewrite rating_split, rating_class_stars in H.
      apply returned_page_inj in H. subst p.
      cbn [wp_level_class wp_rating_class wp_reward].
      split; [apply level_class_styled|]. split; [reflexivity|].
      apply rating_class_unstyled.
    + discriminate H.
Qed.

Lemma page_css_classes_witness :
  match fst (plot_risk_reward_analysis (Some "demo"%string)
               (Fetched (mkJson None false three_bar_stock))
               (F 110) (F 90) (F 100) 30 (F (4 # 100)) gen_seeded) with
  | Returned (Page p) => ~ In (wp_rating_class p) styled_rating_classes
  | _ => False
  end.
Proof.
  destruct (plot_risk_reward_analysis (Some "demo"%string)
              (Fetched (mkJson None false three_bar_stock))
              (F 110) (F 90) (F 100) 30 (F (4 # 100)) gen_seeded) as [o g'] eqn:E.
  destruct o as [st d|[m|p]|e]; try (vm_compute in E; discriminate E).
  exact (proj2 (proj2 (proj2 page_css_classes _ _ _ _ _ _ _ _ _ _ E))).
Defined.

(** *** Short series *)

Lemma ffill_from_length p l : length (ffill_from p l) = length l.
Proof. revert p. induction l as [|x r IH]; intros p; simpl; [reflexivity|now rewrite IH]. Qed.

Lemma dropna_length_le l : (length (dropna l) <= length l)%nat.
Proof. unfold dropna. apply filter_length_le. Qed.

(** The first value of [pct_change()] is NaN, so at most [length - 1]
    returns survive [dropna()]. *)
Lemma pct_change_dropna_short l :
  (length (dropna (pct_change l)) <= length l - 1)%nat.
Proof.
  destruct l as [|x r]; [cbn; lia|].
  unfold pct_change. simpl ffill_from. simpl with_prev.
  replace (fsub (fdiv (if fisnan x then NaN else x) NaN) (F 1)) with NaN
    by (destruct x; reflexivity).
  unfold dropna. simpl filter.
  pose proof (filter_length_le (fun x0 => negb (fisnan x0))
    (with_prev (fun x0 p => fsub (fdiv x0 p) (F 1)) (if fisnan x then NaN else x)
       (ffill_from (if fisnan x then NaN else x) r))) as Hf.
  rewrite with_prev_length, ffill_from_length in Hf. simpl length. lia.
Qed.

Lemma volatility_short_nan closes :
  (length closes < 3)%nat -> volatility_of closes = NaN.
Proof.
  intros H. unfold volatility_of, pstd.
  pose proof (pct_change_dropna_short closes).
  pose proof (dropna_length_le (dropna (pct_change closes))).
  replace (Z.of_nat (length (dropna (dropna (pct_change closes)))) <? 2) with true
    by (symmetry; apply Z.ltb_lt; lia).
  reflexivity.
Qed.

(** C2 (amended): each normalised score is [min(raw/cap, 1.0)] with caps
    0.5, 0.3, 0.7, 0.3; when the raw value is a number (not NaN) the score is
    at most 1.0; it equals [raw/cap] whenever [raw/cap < 1]; a negative raw
    value gives a negative score (no floor at 0); a NaN raw value gives a NaN
    score.  In every report on a series of fewer than 3 bars the volatility is
    NaN (the [std()] of at most one return), so its score is NaN and not
    <= 1.0. *)
Theorem normalized_scores_rule :
  (forall closes volumes current stop uv sc,
     scores_of closes volumes current stop uv = Ok sc ->
     norm_rule cap_volatility (s_volatility sc) (s_norm_volatility sc)
     /\ norm_rule cap_drawdown (s_drawdown sc) (s_norm_drawdown sc)
     /\ norm_rule cap_liquidity (s_liquidity sc) (s_norm_liquidity sc)
     /\ norm_rule cap_bearish (s_bearish sc) (s_norm_bearish sc))
  /\ (forall sd target stop uv r,
     analyse_risk sd target stop uv = RiskReport r ->
     (length (time_series sd) < 3)%nat ->
     volatility r = NaN
     /\ normalize cap_volatility (volatility r) = NaN
     /\ flt_le (normalize cap_volatility (volatility r)) (F 1) = false).
Proof.
  split.
  - intros closes volumes current stop uv sc H.
    apply scores_of_inv in H as (_ & Nv & Nd & Nl & Nb & _).
    rewrite Nv, Nd, Nl, Nb.
    repeat split; try (apply normalize_rule; reflexivity).
  - intros sd target stop uv r H Hlen. apply analyse_risk_report in H as [_ Hb].
    apply body_ok_inv in Hb as (closes & volumes & sc & Hc & Hs & _ & _ & Hv & _).
    apply scores_of_inv in Hs as (_ & _ & _ & _ & _ & _ & Hsv & _).
    apply sorted_closes_length in Hc.
    rewrite Hv, Hsv, volatility_short_nan by lia.
    repeat split.
Qed.

Lemma normalized_scores_rule_witness :
  scores_of [F 100; F 101; F 103] [F 1000; F 1000; F 1200] (F 103) (F 110) None
    = Ok (mkScores
            (volatility_of [F 100; F 101; F 103]) (F (-7 # 103))
            (snd (liquidity_of [F 1000; F 1000; F 1200] None))
            (bearish_of [F 100; F 101; F 103])
            (normalize cap_volatility (volatility_of [F 100; F 101; F 103]))
            (F (-70 # 309))
            (normalize cap_liquidity (snd (liquidity_of [F 1000; F 1000; F 1200] None)))
            (normalize cap_bearish (bearish_of [F 100; F 101; F 103]))
            (fst (liquidity_of [F 1000; F 1000; F 1200] None))
            LOW)
  /\ norm_rule cap_drawdown (F (-7 # 103)) (F (-70 # 309))
  /\ match analyse_risk two_bar_stock (F 110) (F 90) None with
     | RiskReport r => volatility r = NaN
     | RiskError _ => False
     end.
Proof.
  split; [vm_compute; reflexivity|]. split.
  - exact (proj1 (proj2 (proj1 normalized_scores_rule [F 100; F 101; F 103]
             [F 1000; F 1000; F 1200] (F 103) (F 110) None _
             ltac:(vm_compute; reflexivity)))).
  - destruct (analyse_risk two_bar_stock (F 110) (F 90) None) as [m|r] eqn:A.
    + vm_compute in A. discriminate A.
    + exact (proj1 (proj2 normalized_scores_rule two_bar_stock (F 110) (F 90) None r A
               ltac:(vm_compute; lia))).
Defined.
